(** * micro:bit BLE library: a shallow embedding of [microbit-ble-lib.js]

    The development follows [src/html-js/microbit-ble-lib.js]: the
    [MicrobitBLE] class with its event emitter, the service-start sequence,
    the notification decoders and the two outgoing writers.  The host
    Bluetooth stack is not part of the repository, so it appears as an
    environment ([Platform]) whose answers are arbitrary. *)

From Stdlib Require Import ZArith List Bool Lia.
From stdpp Require Import base gmap strings list fin_maps.

Local Open Scope string_scope.
Local Open Scope list_scope.
Local Open Scope Z_scope.

(** ** Bytes, [DataView] and [TextEncoder] *)

(** A notification value is a [DataView] over the received bytes. *)
Abbreviation DataView := (list Byte.byte).

Definition byte_val (b : Byte.byte) : Z := Z.of_N (Byte.to_N b).

(** Storing a number in a [Uint8Array] keeps its low eight bits. *)
Definition byte_of_Z (z : Z) : Byte.byte :=
  match Byte.of_N (Z.to_N (z mod 256)) with
  | Some b => b
  | None => Byte.x00
  end.

(** Errors the library can see: the [Error] objects it creates itself (with
    their message), a [RangeError] of a [DataView] read past the end, and a
    rejection by the Bluetooth stack of the named request. *)
Inductive PlatformOp :=
  | requestDevice (namePrefix : string)
  | gattConnect
  | getPrimaryService (uuid : string)
  | getCharacteristic (uuid : string)
  | startNotifications (uuid : string)
  | writeValue (uuid : string) (payload : list Byte.byte)
  | sleep (ms : Z).

Inductive JsError :=
  | Error (message : string)
  | RangeError
  | Rejected (op : PlatformOp).

Inductive Result (A : Type) :=
  | Ok (a : A)
  | Throw (e : JsError).
Arguments Ok {A} a.
Arguments Throw {A} e.

(** [DataView.prototype.getUint8/getInt8/getUint16/getInt16] as ECMAScript
    defines them: a read outside the view throws, the bytes are combined in
    the requested order, and a signed read subtracts [2^n] from values with
    the top bit set. *)
Definition getUint8 (view : DataView) (byteOffset : nat) : Result Z :=
  match view !! byteOffset with
  | Some b => Ok (byte_val b)
  | None => Throw RangeError
  end.

Definition getInt8 (view : DataView) (byteOffset : nat) : Result Z :=
  match getUint8 view byteOffset with
  | Ok u => Ok (if u <? 128 then u else u - 256)
  | Throw e => Throw e
  end.

Definition getUint16 (view : DataView) (byteOffset : nat) (littleEndian : bool)
  : Result Z :=
  match view !! byteOffset, view !! S byteOffset with
  | Some b0, Some b1 =>
      if littleEndian then Ok (byte_val b0 + 256 * byte_val b1)
      else Ok (byte_val b1 + 256 * byte_val b0)
  | _, _ => Throw RangeError
  end.

Definition getInt16 (view : DataView) (byteOffset : nat) (littleEndian : bool)
  : Result Z :=
  match getUint16 view byteOffset littleEndian with
  | Ok u => Ok (if u <? 32768 then u else u - 65536)
  | Throw e => Throw e
  end.

(** A JavaScript string is a sequence of UTF-16 code units. *)
Abbreviation JsString := (list Z).

Definition is_high_surrogate (u : Z) : bool := (0xD800 <=? u) && (u <=? 0xDBFF).
Definition is_low_surrogate (u : Z) : bool := (0xDC00 <=? u) && (u <=? 0xDFFF).

(** Conversion to scalar values: a surrogate pair is one code point, a lone
    surrogate becomes U+FFFD. *)
Fixpoint to_scalar_values (s : JsString) : list Z :=
  match s with
  | [] => []
  | u :: rest =>
      if is_high_surrogate u then
        match rest with
        | v :: rest' =>
            if is_low_surrogate v
            then (0x10000 + (u - 0xD800) * 0x400 + (v - 0xDC00)) :: to_scalar_values rest'
            else 0xFFFD :: to_scalar_values rest
        | [] => [0xFFFD]
        end
      else if is_low_surrogate u then 0xFFFD :: to_scalar_values rest
      else u :: to_scalar_values rest
  end.

Definition utf8_bytes (c : Z) : list Byte.byte :=
  if c <? 0x80 then [byte_of_Z c]
  else if c <? 0x800 then
    [byte_of_Z (Z.lor 0xC0 (Z.shiftr c 6));
     byte_of_Z (Z.lor 0x80 (Z.land c 0x3F))]
  else if c <? 0x10000 then
    [byte_of_Z (Z.lor 0xE0 (Z.shiftr c 12));
     byte_of_Z (Z.lor 0x80 (Z.land (Z.shiftr c 6) 0x3F));
     byte_of_Z (Z.lor 0x80 (Z.land c 0x3F))]
  else
    [byte_of_Z (Z.lor 0xF0 (Z.shiftr c 18));
     byte_of_Z (Z.lor 0x80 (Z.land (Z.shiftr c 12) 0x3F));
     byte_of_Z (Z.lor 0x80 (Z.land (Z.shiftr c 6) 0x3F));
     byte_of_Z (Z.lor 0x80 (Z.land c 0x3F))].

(** [new TextEncoder().encode(s)]. *)
Definition TextEncoder_encode (s : JsString) : list Byte.byte :=
  concat (map utf8_bytes (to_scalar_values s)).

(** The code units of an ASCII literal. *)
Definition js (s : string) : JsString :=
  map (fun a => Z.of_nat (Ascii.nat_of_ascii a)) (String.list_ascii_of_string s).


(** ** The fixed GATT profile *)

Module MICROBIT_UUIDS.
Definition UART_SERVICE := "6e400001-b5a3-f393-e0a9-e50e24dcca9e".
Definition UART_TX := "6e400002-b5a3-f393-e0a9-e50e24dcca9e".
Definition UART_RX := "6e400003-b5a3-f393-e0a9-e50e24dcca9e".
Definition TEMPERATURE_SERVICE := "e95d6100-251d-470a-a062-fa1922dfa9a8".
Definition TEMPERATURE_DATA := "e95d9250-251d-470a-a062-fa1922dfa9a8".
Definition TEMPERATURE_PERIOD := "e95d1b25-251d-470a-a062-fa1922dfa9a8".
Definition ACCELEROMETER_SERVICE := "e95d0753-251d-470a-a062-fa1922dfa9a8".
Definition ACCELEROMETER_DATA := "e95dca4b-251d-470a-a062-fa1922dfa9a8".
Definition ACCELEROMETER_PERIOD := "e95dfb24-251d-470a-a062-fa1922dfa9a8".
Definition BUTTON_SERVICE := "e95d9882-251d-470a-a062-fa1922dfa9a8".
Definition BUTTON_A := "e95dda90-251d-470a-a062-fa1922dfa9a8".
Definition BUTTON_B := "e95dda91-251d-470a-a062-fa1922dfa9a8".
Definition MAGNETOMETER_SERVICE := "e95df2d8-251d-470a-a062-fa1922dfa9a8".
Definition MAGNETOMETER_DATA := "e95dfb11-251d-470a-a062-fa1922dfa9a8".
Definition MAGNETOMETER_PERIOD := "e95d386c-251d-470a-a062-fa1922dfa9a8".
Definition MAGNETOMETER_BEARING := "e95d9715-251d-470a-a062-fa1922dfa9a8".
Definition LED_SERVICE := "e95dd91d-251d-470a-a062-fa1922dfa9a8".
Definition LED_TEXT := "e95d93ee-251d-470a-a062-fa1922dfa9a8".
End MICROBIT_UUIDS.
Import MICROBIT_UUIDS.

(** ** Events *)

(** The object passed to the listeners of an event, one constructor per
    shape the library builds. *)
Inductive EventData :=
  | connection_data (status : string) (deviceName : option string)
  | disconnection_data (deviceName : option string)
  | uart_data (text : JsString)
  | temperature_data (temperature : Z)
  | xyz_data (x y z : Z)
  | button_data (pressed : bool)
  | bearing_data (bearing : Z)
  | started_data (service : string)
  | failed_data (service : string) (error : JsError)
  | error_data (type : string) (error : JsError).

(** A registered callback: what the emitter can see of it is whether the
    call returns or throws.  [hid] tells the callbacks apart in a trace. *)
Record Handler := { hid : nat; hbody : EventData -> option JsError }.

(** What a run does that can be seen from outside. [Emitted] marks a call
    of [_emit]; [Invoked] a call of one callback; [Requested] a request to
    the Bluetooth stack or the timer. *)
Inductive Obs :=
  | Emitted (event : string) (data : EventData)
  | Invoked (h : nat) (event : string) (data : EventData)
  | ConsoleError (text : string) (error : JsError)
  | ConsoleLog (text : string)
  | Requested (op : PlatformOp).

(** ** The manager object and the world around it *)

Record Config := {
  deviceNamePrefix : string;
  autoStartServices : bool;
  serviceDelay : Z;
}.

(** The argument of the constructor: a property is present or absent.  An
    object that has a property with the value [undefined], which the spread
    would copy over the default, is not represented. *)
Record ConfigArg := {
  arg_deviceNamePrefix : option string;
  arg_autoStartServices : option bool;
  arg_serviceDelay : option Z;
}.

Record Device := { name : string; id : string }.

(** The closures the library attaches to characteristics. *)
Inductive Listener :=
  | uart_tx_listener
  | temperature_listener
  | accelerometer_listener
  | button_a_listener
  | button_b_listener
  | magnetometer_data_listener
  | magnetometer_bearing_listener.

(** The fields of a [MicrobitBLE] instance.  A service or characteristic
    handle is identified by its UUID; [server] is [device.gatt] once a
    connection was made. *)
Record MicrobitBLE := {
  config : Config;
  device : option Device;
  server : option unit;
  services : gmap string string;
  characteristics : gmap string string;
  eventHandlers : gmap string (list Handler);
}.

(** The instance together with the state the platform owns: the
    [connected] flag of [device.gatt], the listeners attached to the device
    and to the characteristics, and the number of awaits made so far.
    There is one flag and one count of listeners: they are those of the
    device the instance holds.  A page that picks a second device while
    holding a first one has two links and two sets of listeners, which this
    state does not tell apart; the properties below are about an instance
    that stays with one device. *)
Record World := {
  this : MicrobitBLE;
  gatt_connected : bool;
  disconnect_listeners : nat;
  value_listeners : list (string * Listener);
  now : nat;
}.

(** The Bluetooth stack: whether the request awaited at time [n] resolves
    (given the state of the link), whether the link is lost while that await
    is pending, the device the chooser returns, whether [gatt.connect()]
    leaves the link up, and [TextDecoder]. *)
Record Platform := {
  resolves : nat -> bool -> PlatformOp -> bool;
  link_lost : nat -> bool;
  chosen_device : nat -> Device;
  link_up : nat -> bool;
  TextDecoder_decode : list Byte.byte -> JsString;
}.

Definition set_this (f : MicrobitBLE -> MicrobitBLE) (w : World) : World :=
  {| this := f (this w); gatt_connected := gatt_connected w;
     disconnect_listeners := disconnect_listeners w;
     value_listeners := value_listeners w; now := now w |}.

Definition set_gatt_connected (b : bool) (w : World) : World :=
  {| this := this w; gatt_connected := b;
     disconnect_listeners := disconnect_listeners w;
     value_listeners := value_listeners w; now := now w |}.

(** The link goes down: the flag is cleared and the characteristic objects
    of the lost connection, with the listeners on them, are dead. *)
Definition link_down (w : World) : World :=
  {| this := this w; gatt_connected := false;
     disconnect_listeners := disconnect_listeners w;
     value_listeners := []; now := now w |}.

Definition add_disconnect_listener (w : World) : World :=
  {| this := this w; gatt_connected := gatt_connected w;
     disconnect_listeners := S (disconnect_listeners w);
     value_listeners := value_listeners w; now := now w |}.

Definition add_value_listener (uuid : string) (l : Listener) (w : World) : World :=
  {| this := this w; gatt_connected := gatt_connected w;
     disconnect_listeners := disconnect_listeners w;
     value_listeners := value_listeners w ++ [(uuid, l)]; now := now w |}.

Definition tick (w : World) : World :=
  {| this := this w; gatt_connected := gatt_connected w;
     disconnect_listeners := disconnect_listeners w;
     value_listeners := value_listeners w; now := S (now w) |}.

Definition with_device (d : option Device) (m : MicrobitBLE) : MicrobitBLE :=
  {| config := config m; device := d; server := server m;
     services := services m; characteristics := characteristics m;
     eventHandlers := eventHandlers m |}.

Definition with_server (s : option unit) (m : MicrobitBLE) : MicrobitBLE :=
  {| config := config m; device := device m; server := s;
     services := services m; characteristics := characteristics m;
     eventHandlers := eventHandlers m |}.

Definition with_services (s : gmap string string) (m : MicrobitBLE) : MicrobitBLE :=
  {| config := config m; device := device m; server := server m;
     services := s; characteristics := characteristics m;
     eventHandlers := eventHandlers m |}.

Definition with_characteristics (c : gmap string string) (m : MicrobitBLE) : MicrobitBLE :=
  {| config := config m; device := device m; server := server m;
     services := services m; characteristics := c;
     eventHandlers := eventHandlers m |}.

Definition with_eventHandlers (h : gmap string (list Handler)) (m : MicrobitBLE) : MicrobitBLE :=
  {| config := config m; device := device m; server := server m;
     services := services m; characteristics := characteristics m;
     eventHandlers := h |}.

(** [this.services.set(key, handle)] and
    [this.characteristics.set(key, handle)] on the world. *)
Definition put_service (key handle : string) (w : World) : World :=
  set_this (fun m => with_services (<[key := handle]> (services m)) m) w.

Definition put_characteristic (key handle : string) (w : World) : World :=
  set_this (fun m =>
    with_characteristics (<[key := handle]> (characteristics m)) m) w.

(** ** Computations: state, exceptions and a trace *)

Definition M (A : Type) : Type := World -> Result A * World * list Obs.

Definition ret {A} (a : A) : M A := fun w => (Ok a, w, []).

Definition throw {A} (e : JsError) : M A := fun w => (Throw e, w, []).

Definition bind {A B} (c : M A) (f : A -> M B) : M B := fun w =>
  match c w with
  | (Ok a, w1, t1) => let '(r, w2, t2) := f a w1 in (r, w2, t1 ++ t2)
  | (Throw e, w1, t1) => (Throw e, w1, t1)
  end.

(** [try { c } catch (error) { h error }]. *)
Definition try_catch {A} (c : M A) (h : JsError -> M A) : M A := fun w =>
  match c w with
  | (Ok a, w1, t1) => (Ok a, w1, t1)
  | (Throw e, w1, t1) => let '(r, w2, t2) := h e w1 in (r, w2, t1 ++ t2)
  end.

Declare Scope M_scope.
Delimit Scope M_scope with M.
Bind Scope M_scope with M.
Notation "x <- c1 ;; c2" := (bind c1 (fun x => c2))
  (at level 100, c1 at next level, c2 at level 200, right associativity) : M_scope.
Notation "c1 ;; c2" := (bind c1 (fun _ => c2))
  (at level 100, c2 at level 200, right associativity) : M_scope.
Local Open Scope M_scope.

Definition gets {A} (f : World -> A) : M A := fun w => (Ok (f w), w, []).
Definition modify (f : World -> World) : M unit := fun w => (Ok tt, f w, []).
Definition log (o : Obs) : M unit := fun w => (Ok tt, w, [o]).
Definition lift {A} (r : Result A) : M A := fun w => (r, w, []).

Definition result_of {A} (x : Result A * World * list Obs) : Result A := x.1.1.
Definition world_of {A} (x : Result A * World * list Obs) : World := x.1.2.
Definition trace_of {A} (x : Result A * World * list Obs) : list Obs := x.2.

(** [array.forEach(f)] and [for (const x of array) { f x }]. *)
Fixpoint forEach {A} (l : list A) (f : A -> M unit) : M unit :=
  match l with
  | [] => ret tt
  | x :: rest => f x ;; forEach rest f
  end.

(** ** The [MicrobitBLE] class *)

Definition default_event_names : list string :=
  ["connection"; "disconnection"; "uart:received"; "temperature:changed";
   "accelerometer:changed"; "button:a:changed"; "button:b:changed";
   "magnetometer:changed"; "magnetometer:bearing:changed";
   "service:started"; "service:failed"; "error"].

Definition _initializeEventHandlers (m : MicrobitBLE) : MicrobitBLE :=
  with_eventHandlers
    (foldl (fun h event => <[event := []]> h) (eventHandlers m) default_event_names)
    m.

(** The spread [...config] comes last, so a property that is present wins
    over the default. *)
Definition constructor (arg : ConfigArg) : MicrobitBLE :=
  _initializeEventHandlers
    {| config :=
         {| deviceNamePrefix := default "BBC micro:bit" (arg_deviceNamePrefix arg);
            autoStartServices := default true (arg_autoStartServices arg);
            serviceDelay := default 300 (arg_serviceDelay arg) |};
       device := None;
       server := None;
       services := ∅;
       characteristics := ∅;
       eventHandlers := ∅ |}.

Definition no_config : ConfigArg :=
  {| arg_deviceNamePrefix := None; arg_autoStartServices := None;
     arg_serviceDelay := None |}.

(** The world of a page that has just built its instance. *)
Definition fresh_world (m : MicrobitBLE) : World :=
  {| this := m; gatt_connected := false; disconnect_listeners := 0;
     value_listeners := []; now := 0 |}.

(** [on(event, handler)]. *)
Definition on (event : string) (handler : Handler) : M unit :=
  has <- gets (fun w => bool_decide (is_Some (eventHandlers (this w) !! event))) ;;
  (if negb has
   then modify (set_this (fun m => with_eventHandlers (<[event := []]> (eventHandlers m)) m))
   else ret tt) ;;
  modify (set_this (fun m =>
    with_eventHandlers (alter (fun hs => hs ++ [handler]) event (eventHandlers m)) m)).

(** [handler(data)]: the call is seen, and it returns or throws. *)
Definition call (handler : Handler) (event : string) (data : EventData) : M unit :=
  fun w =>
    (match hbody handler data with Some e => Throw e | None => Ok tt end,
     w, [Invoked (hid handler) event data]).

Definition console_error (text : string) (error : JsError) : M unit :=
  log (ConsoleError text error).

Definition console_log (text : string) : M unit := log (ConsoleLog text).

(** [_emit(event, data)]. *)
Definition _emit (event : string) (data : EventData) : M unit :=
  log (Emitted event data) ;;
  handlers <- gets (fun w => default [] (eventHandlers (this w) !! event)) ;;
  forEach handlers (fun handler =>
    try_catch (call handler event data)
      (fun error =>
         console_error (String.append "Error in event handler for "
                          (String.append event ":")) error)).

(** [_handleDisconnection()]. *)
Definition _handleDisconnection : M unit :=
  modify (set_this (with_services ∅)) ;;
  modify (set_this (with_characteristics ∅)) ;;
  d <- gets (fun w => device (this w)) ;;
  _emit "disconnection" (disconnection_data (name <$> d)).

(** [this.server?.connected]. *)
Definition server_connected (w : World) : bool :=
  match server (this w) with
  | Some _ => gatt_connected w
  | None => false
  end.

(** [this.device?.gatt?.connected]. *)
Definition device_gatt_connected (w : World) : bool :=
  match device (this w) with
  | Some _ => gatt_connected w
  | None => false
  end.

Definition is_timer (op : PlatformOp) : bool :=
  match op with sleep _ => true | _ => false end.

Section WithPlatform.
Context (P : Platform).

(** The platform drops the link: the flag goes down and every
    [gattserverdisconnected] listener (each one calls
    [_handleDisconnection]) runs. *)
Definition gattserverdisconnected : M unit :=
  n <- gets disconnect_listeners ;;
  modify link_down ;;
  forEach (replicate n tt) (fun _ => _handleDisconnection).

(** [await op]: the request is made; while it is pending the link may be
    lost, and the listeners run before the awaiting code resumes; then the
    request resolves or rejects.  A timer always resolves. *)
Definition await (op : PlatformOp) : M unit :=
  log (Requested op) ;;
  n <- gets now ;;
  modify tick ;;
  up <- gets gatt_connected ;;
  (if link_lost P n && up then gattserverdisconnected else ret tt) ;;
  up' <- gets gatt_connected ;;
  if is_timer op || resolves P n up' op then ret tt else throw (Rejected op).

(** [await this.device.gatt.connect()]. *)
Definition await_gatt_connect : M unit :=
  log (Requested gattConnect) ;;
  n <- gets now ;;
  modify tick ;;
  up <- gets gatt_connected ;;
  if resolves P n up gattConnect
  then modify (set_gatt_connected (link_up P n))
  else throw (Rejected gattConnect).

Definition require_connected : M unit :=
  c <- gets server_connected ;;
  if negb c then throw (Error "GATT not connected") else ret tt.

Definition services_set (key handle : string) : M unit :=
  modify (put_service key handle).

Definition characteristics_set (key handle : string) : M unit :=
  modify (put_characteristic key handle).

Definition addEventListener (uuid : string) (l : Listener) : M unit :=
  modify (add_value_listener uuid l).

(** [startUART()]. *)
Definition startUART : M unit :=
  try_catch
    (require_connected ;;
     await (getPrimaryService UART_SERVICE) ;;
     services_set "uart" UART_SERVICE ;;
     await (getCharacteristic UART_RX) ;;
     characteristics_set "uart:rx" UART_RX ;;
     await (getCharacteristic UART_TX) ;;
     await (startNotifications UART_TX) ;;
     addEventListener UART_TX uart_tx_listener ;;
     characteristics_set "uart:tx" UART_TX ;;
     _emit "service:started" (started_data "uart"))
    (fun error =>
       _emit "service:failed" (failed_data "uart" error) ;;
       throw error).

(** A JavaScript [+ '\n']. *)
Definition newline : JsString := [10].

(** [sendUART(text)]. *)
Definition sendUART (text : JsString) : M unit :=
  char <- gets (fun w => characteristics (this w) !! "uart:rx") ;;
  match char with
  | None => throw (Error "UART service not started")
  | Some c => await (writeValue c (TextEncoder_encode (text ++ newline)))
  end.

(** [startTemperature()]. *)
Definition startTemperature : M unit :=
  try_catch
    (require_connected ;;
     await (getPrimaryService TEMPERATURE_SERVICE) ;;
     services_set "temperature" TEMPERATURE_SERVICE ;;
     await (getCharacteristic TEMPERATURE_DATA) ;;
     await (startNotifications TEMPERATURE_DATA) ;;
     addEventListener TEMPERATURE_DATA temperature_listener ;;
     characteristics_set "temperature:data" TEMPERATURE_DATA ;;
     _emit "service:started" (started_data "temperature"))
    (fun error =>
       _emit "service:failed" (failed_data "temperature" error) ;;
       throw error).

(** [startAccelerometer()]. *)
Definition startAccelerometer : M unit :=
  try_catch
    (require_connected ;;
     await (getPrimaryService ACCELEROMETER_SERVICE) ;;
     services_set "accelerometer" ACCELEROMETER_SERVICE ;;
     await (getCharacteristic ACCELEROMETER_DATA) ;;
     await (startNotifications ACCELEROMETER_DATA) ;;
     addEventListener ACCELEROMETER_DATA accelerometer_listener ;;
     characteristics_set "accelerometer:data" ACCELEROMETER_DATA ;;
     _emit "service:started" (started_data "accelerometer"))
    (fun error =>
       _emit "service:failed" (failed_data "accelerometer" error) ;;
       throw error).

(** [startButtons()]. *)
Definition startButtons : M unit :=
  try_catch
    (require_connected ;;
     await (getPrimaryService BUTTON_SERVICE) ;;
     services_set "buttons" BUTTON_SERVICE ;;
     await (getCharacteristic BUTTON_A) ;;
     await (startNotifications BUTTON_A) ;;
     addEventListener BUTTON_A button_a_listener ;;
     characteristics_set "button:a" BUTTON_A ;;
     await (getCharacteristic BUTTON_B) ;;
     await (startNotifications BUTTON_B) ;;
     addEventListener BUTTON_B button_b_listener ;;
     characteristics_set "button:b" BUTTON_B ;;
     _emit "service:started" (started_data "buttons"))
    (fun error =>
       _emit "service:failed" (failed_data "buttons" error) ;;
       throw error).

(** [startMagnetometer()]; the two inner blocks set [hasData]. *)
Definition startMagnetometer : M unit :=
  try_catch
    (require_connected ;;
     await (getPrimaryService MAGNETOMETER_SERVICE) ;;
     services_set "magnetometer" MAGNETOMETER_SERVICE ;;
     hasData1 <- try_catch
       (await (getCharacteristic MAGNETOMETER_DATA) ;;
        await (startNotifications MAGNETOMETER_DATA) ;;
        addEventListener MAGNETOMETER_DATA magnetometer_data_listener ;;
        characteristics_set "magnetometer:data" MAGNETOMETER_DATA ;;
        ret true)
       (fun dataError =>
          console_log "Magnetometer data characteristic not available" ;;
          ret false) ;;
     hasData2 <- try_catch
       (await (getCharacteristic MAGNETOMETER_BEARING) ;;
        await (startNotifications MAGNETOMETER_BEARING) ;;
        addEventListener MAGNETOMETER_BEARING magnetometer_bearing_listener ;;
        characteristics_set "magnetometer:bearing" MAGNETOMETER_BEARING ;;
        ret true)
       (fun bearingError =>
          console_log "Magnetometer bearing characteristic not available" ;;
          ret hasData1) ;;
     if hasData2
     then _emit "service:started" (started_data "magnetometer")
     else throw (Error "No magnetometer data available"))
    (fun error =>
       _emit "service:failed" (failed_data "magnetometer" error) ;;
       throw error).

(** [sendTextToLED(text)]; [Ok tt] stands for [{ success: true }]. *)
Definition sendTextToLED (text : JsString) : M unit :=
  try_catch
    (require_connected ;;
     service <- gets (fun w => services (this w) !! "led") ;;
     (match service with
      | Some _ => ret tt
      | None =>
          await (getPrimaryService LED_SERVICE) ;;
          services_set "led" LED_SERVICE
      end) ;;
     await (getCharacteristic LED_TEXT) ;;
     await (writeValue LED_TEXT (TextEncoder_encode text)))
    (fun error =>
       _emit "error" (error_data "led" error) ;;
       throw error).

(** One entry of the table in [_startAllServices]. *)
Record ServiceEntry := {
  entry_name : string;
  method : M unit;
  optional : bool;
}.

Definition service_table : list ServiceEntry :=
  [ {| entry_name := "uart"; method := startUART; optional := false |};
    {| entry_name := "temperature"; method := startTemperature; optional := false |};
    {| entry_name := "accelerometer"; method := startAccelerometer; optional := false |};
    {| entry_name := "buttons"; method := startButtons; optional := false |};
    {| entry_name := "magnetometer"; method := startMagnetometer; optional := true |} ].

(** The body of the [for ... of] loop. *)
Definition start_one (e : ServiceEntry) : M unit :=
  try_catch
    (method e ;;
     delay <- gets (fun w => serviceDelay (config (this w))) ;;
     await (sleep delay))
    (fun error =>
       if negb (optional e)
       then _emit "service:failed" (failed_data (entry_name e) error)
       else ret tt).

(** [_startAllServices()]. *)
Definition _startAllServices : M unit :=
  await (sleep 500) ;;
  forEach service_table start_one.

(** [connect()]; [Ok tt] stands for [{ success: true, device }]. *)
Definition connect : M unit :=
  try_catch
    (_emit "connection" (connection_data "requesting" None) ;;
     prefix <- gets (fun w => deviceNamePrefix (config (this w))) ;;
     n <- gets now ;;
     await (requestDevice prefix) ;;
     modify (set_this (with_device (Some (chosen_device P n)))) ;;
     modify add_disconnect_listener ;;
     await_gatt_connect ;;
     modify (set_this (with_server (Some tt))) ;;
     c <- gets gatt_connected ;;
     (if negb c then throw (Error "GATT connection failed") else ret tt) ;;
     d <- gets (fun w => device (this w)) ;;
     _emit "connection" (connection_data "connected" (name <$> d)) ;;
     auto <- gets (fun w => autoStartServices (config (this w))) ;;
     (if auto then _startAllServices else ret tt))
    (fun error =>
       _emit "error" (error_data "connection" error) ;;
       throw error).

(** [disconnect()]: [device.gatt.disconnect()] takes the link down, which
    the platform reports through [gattserverdisconnected]. *)
Definition disconnect : M unit :=
  c <- gets device_gatt_connected ;;
  if c then gattserverdisconnected else ret tt.

Definition isConnected (w : World) : bool := device_gatt_connected w.

Definition isServiceStarted (serviceName : string) (w : World) : bool :=
  bool_decide (is_Some (services (this w) !! serviceName)).

(** The closures attached to the characteristics. *)
Definition run_listener (l : Listener) (value : DataView) : M unit :=
  match l with
  | uart_tx_listener =>
      _emit "uart:received" (uart_data (TextDecoder_decode P value))
  | temperature_listener =>
      temperature <- lift (getInt8 value 0) ;;
      _emit "temperature:changed" (temperature_data temperature)
  | accelerometer_listener =>
      x <- lift (getInt16 value 0 true) ;;
      y <- lift (getInt16 value 2 true) ;;
      z <- lift (getInt16 value 4 true) ;;
      _emit "accelerometer:changed" (xyz_data x y z)
  | button_a_listener =>
      state <- lift (getUint8 value 0) ;;
      _emit "button:a:changed" (button_data (state =? 1))
  | button_b_listener =>
      state <- lift (getUint8 value 0) ;;
      _emit "button:b:changed" (button_data (state =? 1))
  | magnetometer_data_listener =>
      x <- lift (getInt16 value 0 true) ;;
      y <- lift (getInt16 value 2 true) ;;
      z <- lift (getInt16 value 4 true) ;;
      _emit "magnetometer:changed" (xyz_data x y z)
  | magnetometer_bearing_listener =>
      bearing <- lift (getUint16 value 0 true) ;;
      _emit "magnetometer:bearing:changed" (bearing_data bearing)
  end.

(** A [characteristicvaluechanged] event on the characteristic [uuid]:
    its listeners run in the order they were attached; an exception in a
    listener is reported by the browser and does not stop the others. *)
Definition characteristicvaluechanged (uuid : string) (value : DataView) : M unit :=
  ls <- gets (fun w => filter (fun ul => ul.1 = uuid) (value_listeners w)) ;;
  forEach ls (fun ul =>
    try_catch (run_listener ul.2 value)
      (fun error => console_error "Uncaught" error)).

End WithPlatform.

(** [getDeviceInfo()].  The [services] array is kept as the set of its
    elements: its order is the insertion order of the JS Map, which the
    registry does not record. *)
Record DeviceInfo := {
  info_name : option string;
  info_id : option string;
  info_connected : bool;
  info_services : gset string;
}.

Definition getDeviceInfo (w : World) : DeviceInfo :=
  {| info_name := name <$> device (this w);
     info_id := id <$> device (this w);
     info_connected := isConnected w;
     info_services := dom (services (this w)) |}.

(** ** What an emission looks like *)

(** The calls an emission makes for a list of callbacks: each callback in
    turn, followed by the console line when it throws. *)
Definition handler_calls (event : string) (data : EventData) (hs : list Handler)
  : list Obs :=
  flat_map (fun h =>
    Invoked (hid h) event data ::
    match hbody h data with
    | Some e => [ConsoleError (String.append "Error in event handler for "
                                 (String.append event ":")) e]
    | None => []
    end) hs.

Definition registered (event : string) (w : World) : list Handler :=
  default [] (eventHandlers (this w) !! event).

(** The callbacks that were called, in the order of the calls. *)
Definition invocations (t : list Obs) : list nat :=
  flat_map (fun o => match o with Invoked h _ _ => [h] | _ => [] end) t.

(** The console lines of a trace. *)
Definition console_errors (t : list Obs) : list JsError :=
  flat_map (fun o => match o with ConsoleError _ e => [e] | _ => [] end) t.

Definition is_gatt (op : PlatformOp) : bool :=
  match op with
  | getPrimaryService _ | getCharacteristic _ | startNotifications _
  | writeValue _ _ => true
  | _ => false
  end.

(** A platform on which the link never drops and every request resolves
    (a GATT request needs the link, as Web Bluetooth has it).  Its decoder
    reads one code unit per byte, which is what [TextDecoder] gives for
    ASCII payloads; no property states a decoded text. *)
Definition ideal_platform : Platform :=
  {| resolves := fun _ up op => up || negb (is_gatt op);
     link_lost := fun _ => false;
     chosen_device := fun _ => {| name := "BBC micro:bit [zuvig]"; id := "d0" |};
     link_up := fun _ => true;
     TextDecoder_decode := fun bs => map byte_val bs |}.

(** The two's-complement reading of an [n]-bit pattern [u]. *)
Definition twos_complement (n : Z) (u : Z) : Z :=
  if Z.testbit u (n - 1) then u - 2 ^ n else u.

(** ** Vocabulary of the properties *)

(** The trace of one emission in the world [w]. *)
Definition emission (event : string) (data : EventData) (w : World) : list Obs :=
  Emitted event data :: handler_calls event data (registered event w).

(** The signed 16-bit little-endian reading of two bytes. *)
Definition int16_le (lo hi : Byte.byte) : Z :=
  twos_complement 16 (byte_val lo + 256 * byte_val hi).

(** The instance with both registries emptied. *)
Definition cleared (w : World) : World :=
  set_this (with_characteristics ∅) (set_this (with_services ∅) w).

Definition disconnection_trace (w : World) : list Obs :=
  emission "disconnection" (disconnection_data (name <$> device (this w))) w.

(** What a loss of the link does to the world, and its trace. *)
Definition dropped (w : World) : World :=
  match disconnect_listeners w with
  | O => link_down w
  | S _ => cleared (link_down w)
  end.

Definition dropped_trace (w : World) : list Obs :=
  concat (replicate (disconnect_listeners w) (disconnection_trace w)).

(** The effect on the world of waiting once: time passes, and the link may
    be lost meanwhile. *)
Definition waited (P : Platform) (w : World) : World :=
  if link_lost P (now w) && gatt_connected w then dropped (tick w) else tick w.

Definition waited_trace (P : Platform) (w : World) : list Obs :=
  if link_lost P (now w) && gatt_connected w then dropped_trace (tick w) else [].

(** Projections of a trace. *)
Definition writes (t : list Obs) : list (string * list Byte.byte) :=
  flat_map (fun o =>
    match o with Requested (writeValue u bs) => [(u, bs)] | _ => [] end) t.

Definition is_service_event (o : Obs) : bool :=
  match o with
  | Emitted event _ =>
      String.eqb event "service:started" || String.eqb event "service:failed"
  | Requested (sleep _) => true
  | _ => false
  end.

(** The service events and the pauses of a trace, in order. *)
Definition schedule (t : list Obs) : list Obs := List.filter is_service_event t.

(** [spec x Q]: the outcome [x] of a run has result, final world and trace
    related by [Q]. *)
Definition spec {A} (x : Result A * World * list Obs)
    (Q : Result A -> World -> list Obs -> Prop) : Prop :=
  Q (result_of x) (world_of x) (trace_of x).

(** The world a page is in after a [connect()] on which all went well. *)
Definition connected_world : World :=
  world_of (connect ideal_platform (fresh_world (constructor no_config))).

(** What no start method touches. *)
Definition static (w : World) :=
  (config (this w), eventHandlers (this w), device (this w), server (this w),
   disconnect_listeners w).

(** The registries hold nothing of a lost connection: while the link is up
    somebody listens for its loss, and once it is down both registries are
    empty. *)
Definition consistent (w : World) : Prop :=
  if gatt_connected w
  then (1 <= disconnect_listeners w)%nat
  else services (this w) = ∅ /\ characteristics (this w) = ∅.

(** A platform that, as Web Bluetooth requires, rejects the GATT requests
    that are made or pending when the link is down. *)
Definition compliant (P : Platform) : Prop :=
  forall n op, is_gatt op = true -> resolves P n false op = false.

(** What a start method for the service [s] guarantees. *)
Definition start_post (P : Platform) (s : string) (w : World)
    (r : Result unit) (w' : World) (t : list Obs) : Prop :=
  static w' = static w
  /\ writes t = []
  /\ schedule t
     = match r with
       | Ok _ => [Emitted "service:started" (started_data s)]
       | Throw e => [Emitted "service:failed" (failed_data s e)]
       end
  /\ (compliant P -> consistent w -> consistent w').

(** The service events and pauses of one turn of the loop, given how the
    start method ended and the configured delay. *)
Definition attempt_schedule (e : ServiceEntry) (r : Result unit) (delay : Z)
  : list Obs :=
  match r with
  | Ok _ =>
      [Emitted "service:started" (started_data (entry_name e));
       Requested (sleep delay)]
  | Throw err =>
      Emitted "service:failed" (failed_data (entry_name e) err) ::
      (if optional e then []
       else [Emitted "service:failed" (failed_data (entry_name e) err)])
  end.

(** The schedule of the whole loop, turn by turn: each start method is
    judged in the world its turn begins in. *)
Fixpoint expected_schedule (P : Platform) (es : list ServiceEntry) (w : World)
  : list Obs :=
  match es with
  | [] => []
  | e :: rest =>
      attempt_schedule e (result_of (method e w)) (serviceDelay (config (this w)))
      ++ expected_schedule P rest (world_of (start_one P e w))
  end.

Definition one_post (P : Platform) (e : ServiceEntry) (w : World)
    (r : Result unit) (w' : World) (t : list Obs) : Prop :=
  r = Ok tt
  /\ static w' = static w
  /\ writes t = []
  /\ schedule t
     = attempt_schedule e (result_of (method e w)) (serviceDelay (config (this w)))
  /\ (compliant P -> consistent w -> consistent w').

Definition loop_post (P : Platform) (es : list ServiceEntry) (w : World)
    (r : Result unit) (w' : World) (t : list Obs) : Prop :=
  r = Ok tt
  /\ static w' = static w
  /\ writes t = []
  /\ schedule t = expected_schedule P es w
  /\ (compliant P -> consistent w -> consistent w').

(** The same platform, except that the service [uuid] cannot be opened. *)
Definition without_service (uuid : string) : Platform :=
  {| resolves := fun n up op =>
       resolves ideal_platform n up op
       && match op with
          | getPrimaryService u => negb (String.eqb u uuid)
          | _ => true
          end;
     link_lost := link_lost ideal_platform;
     chosen_device := chosen_device ideal_platform;
     link_up := link_up ideal_platform;
     TextDecoder_decode := TextDecoder_decode ideal_platform |}.

Definition manual_start : ConfigArg :=
  {| arg_deviceNamePrefix := None; arg_autoStartServices := Some false;
     arg_serviceDelay := None |}.

(** A connected instance on which no service was started yet. *)
Definition linked_world : World :=
  world_of (connect ideal_platform (fresh_world (constructor manual_start))).

(** The requests of a trace, in order. *)
Definition requests (t : list Obs) : list PlatformOp :=
  flat_map (fun o => match o with Requested op => [op] | _ => [] end) t.

(** The console lines written with [console.log]. *)
Definition console_logs (t : list Obs) : list string :=
  flat_map (fun o => match o with ConsoleLog text => [text] | _ => [] end) t.

Definition is_failure_of (s : string) (o : Obs) : bool :=
  match o with
  | Emitted event (failed_data s' _) =>
      String.eqb event "service:failed" && String.eqb s' s
  | _ => false
  end.

(** How many times [service:failed] was emitted for the service [s]. *)
Definition failures (s : string) (t : list Obs) : nat :=
  length (List.filter (is_failure_of s) t).

(** The world in which the [k]-th turn of the loop begins. *)
Definition turn_world (P : Platform) (k : nat) (w : World) : World :=
  fold_left (fun w0 e => world_of (start_one P e w0))
    (take k (service_table P)) (waited P w).

(** A platform that cooperates: the link is never lost, [gatt.connect()]
    brings it up, and every request that does not need a link, or that finds
    the link up, resolves. *)
Definition cooperative (P : Platform) : Prop :=
  (forall n, link_lost P n = false)
  /\ (forall n, link_up P n = true)
  /\ (forall n up op, up = true \/ is_gatt op = false -> resolves P n up op = true).

Definition known_services : list string :=
  ["uart"; "temperature"; "accelerometer"; "buttons"; "magnetometer"].

(** The ideal platform, except that the link is lost while the await
    number [k] is pending. *)
Definition link_lost_at (k : nat) : Platform :=
  {| resolves := resolves ideal_platform;
     link_lost := fun n => Nat.eqb n k;
     chosen_device := chosen_device ideal_platform;
     link_up := link_up ideal_platform;
     TextDecoder_decode := TextDecoder_decode ideal_platform |}.

(** The trace of the turns of the loop for the entries [es], the first
    begun in [w]: every entry has its turn, whatever became of the entries
    before it.  A turn is the run of the start method, followed by the
    pause when it succeeded and by the loop's own [service:failed] when it
    failed and the entry is not optional. *)
Fixpoint turns_trace (P : Platform) (es : list ServiceEntry) (w : World) : list Obs :=
  match es with
  | [] => []
  | e :: rest =>
      let w1 := world_of (method e w) in
      trace_of (method e w)
      ++ match result_of (method e w) with
         | Ok _ =>
             Requested (sleep (serviceDelay (config (this w1)))) :: waited_trace P w1
             ++ turns_trace P rest (waited P w1)
         | Throw error =>
             (if optional e then []
              else emission "service:failed" (failed_data (entry_name e) error) w1)
             ++ turns_trace P rest w1
         end
  end.

(** The requests [sendTextToLED] makes before it is done: the service
    when the registry does not hold it, then the characteristic, then the
    write. *)
Definition led_requests (text : JsString) (w : World) : list PlatformOp :=
  match services (this w) !! "led" with
  | Some _ => []
  | None => [getPrimaryService LED_SERVICE]
  end ++ [getCharacteristic LED_TEXT; writeValue LED_TEXT (TextEncoder_encode text)].

(** ** Vocabulary of the further properties *)

(** The number of bytes a listener reads; the UART listener decodes the
    whole value. *)
Definition payload_width (l : Listener) : option nat :=
  match l with
  | uart_tx_listener => None
  | temperature_listener | button_a_listener | button_b_listener => Some 1%nat
  | magnetometer_bearing_listener => Some 2%nat
  | accelerometer_listener | magnetometer_data_listener => Some 6%nat
  end.

(** How a start method of the service [s] with UUID [uuid] can fail, and
    what a failure after the service was opened leaves behind. *)
Definition failed_start_post (s uuid : string)
    (r : Result unit) (w' : World) (t : list Obs) : Prop :=
  match r with
  | Ok _ => True
  | Throw err =>
      (err = Error "GATT not connected" /\ requests t = [])
      \/ err = Rejected (getPrimaryService uuid)
      \/ (((exists u, err = Rejected (getCharacteristic u)
                     \/ err = Rejected (startNotifications u))
           \/ err = Error "No magnetometer data available")
          /\ (if gatt_connected w' then isServiceStarted s w' = true else True))
  end.

(** The ideal platform, except that the characteristic [uuid] cannot be
    obtained. *)
Definition without_characteristic (uuid : string) : Platform :=
  {| resolves := fun n up op =>
       resolves ideal_platform n up op
       && match op with
          | getCharacteristic u => negb (String.eqb u uuid)
          | _ => true
          end;
     link_lost := link_lost ideal_platform;
     chosen_device := chosen_device ideal_platform;
     link_up := link_up ideal_platform;
     TextDecoder_decode := TextDecoder_decode ideal_platform |}.

Definition data_unavailable : string := "Magnetometer data characteristic not available".
Definition bearing_unavailable : string :=
  "Magnetometer bearing characteristic not available".

(** The ideal platform, except that it refuses the services [bad] picks. *)
Definition refusing (bad : string -> bool) : Platform :=
  {| resolves := fun n up op =>
       resolves ideal_platform n up op
       && match op with
          | getPrimaryService u => negb (bad u)
          | _ => true
          end;
     link_lost := link_lost ideal_platform;
     chosen_device := chosen_device ideal_platform;
     link_up := link_up ideal_platform;
     TextDecoder_decode := TextDecoder_decode ideal_platform |}.

(** The service registry with [s] added unless its UUID is refused. *)
Definition add_unless (bad : string -> bool) (m : gmap string string)
    (su : string * string) : gmap string string :=
  if bad su.2 then m else <[su.1 := su.2]> m.

Definition service_uuids : list (string * string) :=
  [("uart", UART_SERVICE); ("temperature", TEMPERATURE_SERVICE);
   ("accelerometer", ACCELEROMETER_SERVICE); ("buttons", BUTTON_SERVICE);
   ("magnetometer", MAGNETOMETER_SERVICE)].

Definition turn_post (bad : string -> bool) (su : string * string) (w : World)
    (r : Result unit) (w' : World) (t : list Obs) : Prop :=
  r = Ok tt
  /\ server (this w') = server (this w)
  /\ gatt_connected w' = gatt_connected w
  /\ services (this w') = add_unless bad (services (this w)) su.

(** The events of a trace other than [disconnection], in order. *)
Definition reported (t : list Obs) : list (string * EventData) :=
  flat_map (fun o =>
    match o with
    | Emitted event data =>
        if String.eqb event "disconnection" then [] else [(event, data)]
    | _ => []
    end) t.

(** The number of [disconnection] events of a trace. *)
Definition disconnections (t : list Obs) : nat :=
  length (List.filter (fun o =>
    match o with
    | Emitted event _ => String.eqb event "disconnection"
    | _ => false
    end) t).

(** ** Lemmas on the monad and the emitter *)

Lemma byte_val_range b : 0 <= byte_val b < 256.
Proof.
  unfold byte_val. pose proof (Byte.to_N_bounded b) as H. lia.
Qed.

Lemma forEach_calls event data (hs : list Handler) w :
  forEach hs (fun handler =>
    try_catch (call handler event data)
      (fun error =>
         console_error (String.append "Error in event handler for "
                          (String.append event ":")) error)) w
  = (Ok tt, w, handler_calls event data hs).
Proof.
  induction hs as [|h hs IH]; [reflexivity|].
  cbn [forEach]. unfold bind at 1. unfold try_catch at 1, call at 1.
  destruct (hbody h data) as [e|] eqn:Hb; cbn.
  - rewrite IH. cbn. rewrite Hb. reflexivity.
  - rewrite IH. cbn. rewrite Hb. reflexivity.
Qed.

Lemma _emit_run event data w :
  _emit event data w
  = (Ok tt, w, Emitted event data :: handler_calls event data (registered event w)).
Proof.
  unfold _emit, bind, log, gets. rewrite forEach_calls. reflexivity.
Qed.

Lemma invocations_handler_calls event data hs :
  invocations (handler_calls event data hs) = map hid hs.
Proof.
  induction hs as [|h hs IH]; [reflexivity|].
  unfold handler_calls, invocations in *. cbn [flat_map map].
  rewrite flat_map_app, IH. destruct (hbody h data); reflexivity.
Qed.

Lemma twos_complement_8 u :
  0 <= u < 256 -> twos_complement 8 u = if u <? 128 then u else u - 256.
Proof.
  intros Hu. unfold twos_complement.
  replace (8 - 1) with 7 by lia.
  rewrite Z.testbit_eqb by lia. change (2 ^ 7) with 128. change (2 ^ 8) with 256.
  destruct (Z.ltb_spec u 128).
  - rewrite Z.div_small by lia. reflexivity.
  - replace (u / 128) with 1 by (apply Z.div_unique with (r := u - 128); lia).
    reflexivity.
Qed.

Lemma twos_complement_16 u :
  0 <= u < 65536 -> twos_complement 16 u = if u <? 32768 then u else u - 65536.
Proof.
  intros Hu. unfold twos_complement.
  replace (16 - 1) with 15 by lia.
  rewrite Z.testbit_eqb by lia. change (2 ^ 15) with 32768. change (2 ^ 16) with 65536.
  destruct (Z.ltb_spec u 32768).
  - rewrite Z.div_small by lia. reflexivity.
  - replace (u / 32768) with 1 by (apply Z.div_unique with (r := u - 32768); lia).
    reflexivity.
Qed.

(** * Properties *)

(** ** Notification decoders *)

Lemma byte_val_eqb_1 b : (byte_val b =? 1) = Byte.eqb b Byte.x01.
Proof. destruct b; reflexivity. Qed.

(** C1 (as amended): for every 1-byte button payload, button A and button
    B decode [pressed] as "the byte equals 1": byte 0 gives false, byte 1
    gives true, every other byte value gives false; the listener emits
    that boolean as the [pressed] field of [button:a:changed] resp.
    [button:b:changed], to every registered callback. *)
Theorem button_decode_pressed_iff_one (P : Platform) (b : Byte.byte) (w : World) :
  run_listener P button_a_listener [b] w
    = (Ok tt, w, emission "button:a:changed" (button_data (Byte.eqb b Byte.x01)) w)
  /\ run_listener P button_b_listener [b] w
    = (Ok tt, w, emission "button:b:changed" (button_data (Byte.eqb b Byte.x01)) w)
  /\ Byte.eqb Byte.x00 Byte.x01 = false
  /\ Byte.eqb Byte.x01 Byte.x01 = true
  /\ Byte.eqb b Byte.x01 = (byte_val b =? 1).
Proof.
  repeat split.
  - unfold run_listener, bind, lift, getUint8. cbn [lookup list_lookup].
    rewrite _emit_run, byte_val_eqb_1. reflexivity.
  - unfold run_listener, bind, lift, getUint8. cbn [lookup list_lookup].
    rewrite _emit_run, byte_val_eqb_1. reflexivity.
  - symmetry. apply byte_val_eqb_1.
Qed.

(** C1 (as stated) fails: the byte value 2 is nonzero, and both button
    listeners emit [pressed = false] for it. *)
Lemma button_nonzero_not_pressed :
  byte_val Byte.x02 <> 0
  /\ trace_of (run_listener ideal_platform button_a_listener [Byte.x02]
                 (fresh_world (constructor no_config)))
     = [Emitted "button:a:changed" (button_data false)]
  /\ trace_of (run_listener ideal_platform button_b_listener [Byte.x02]
                 (fresh_world (constructor no_config)))
     = [Emitted "button:b:changed" (button_data false)].
Proof. repeat split; [discriminate | vm_compute; reflexivity ..]. Qed.

(** C6: for every 1-byte temperature payload the listener emits the
    two's-complement value of the byte, which lies in [-128, 127]; the
    byte 0xE8 decodes to -24. *)
Theorem temperature_decode_signed (P : Platform) (b : Byte.byte) (w : World) :
  run_listener P temperature_listener [b] w
    = (Ok tt, w,
       emission "temperature:changed"
         (temperature_data (twos_complement 8 (byte_val b))) w)
  /\ -128 <= twos_complement 8 (byte_val b) <= 127
  /\ twos_complement 8 (byte_val b) mod 256 = byte_val b
  /\ twos_complement 8 (byte_val Byte.xe8) = -24.
Proof.
  pose proof (byte_val_range b) as Hb.
  rewrite (twos_complement_8 _ Hb).
  repeat split.
  - unfold run_listener, bind, lift, getInt8, getUint8. cbn [lookup list_lookup].
    rewrite _emit_run. reflexivity.
  - destruct (Z.ltb_spec (byte_val b) 128); lia.
  - destruct (Z.ltb_spec (byte_val b) 128); lia.
  - destruct (Z.ltb_spec (byte_val b) 128).
    + apply Z.mod_small; lia.
    + symmetry. apply Z.mod_unique with (q := -1); lia.
Qed.

Lemma getInt16_le (b0 b1 : Byte.byte) (view : DataView) (off : nat) :
  view !! off = Some b0 -> view !! S off = Some b1 ->
  getInt16 view off true = Ok (int16_le b0 b1).
Proof.
  intros H0 H1. unfold getInt16, getUint16, int16_le. rewrite H0, H1.
  pose proof (byte_val_range b0). pose proof (byte_val_range b1).
  rewrite twos_complement_16 by lia. reflexivity.
Qed.

Lemma int16_le_range lo hi :
  -32768 <= int16_le lo hi <= 32767
  /\ int16_le lo hi mod 65536 = byte_val lo + 256 * byte_val hi.
Proof.
  unfold int16_le.
  pose proof (byte_val_range lo). pose proof (byte_val_range hi).
  rewrite twos_complement_16 by lia.
  destruct (Z.ltb_spec (byte_val lo + 256 * byte_val hi) 32768).
  - split; [lia|]. apply Z.mod_small; lia.
  - split; [lia|]. symmetry. apply Z.mod_unique with (q := -1); lia.
Qed.

(** C5: for every 6-byte payload the accelerometer and the magnetometer
    listeners emit x, y, z as the signed 16-bit little-endian
    (two's-complement) readings of bytes 0-1, 2-3 and 4-5; the bytes
    10 00 F0 FF 00 04 give x = 16, y = -16, z = 1024. *)
Theorem xyz_decode_int16_le (P : Platform) (b0 b1 b2 b3 b4 b5 : Byte.byte) (w : World) :
  let x := int16_le b0 b1 in
  let y := int16_le b2 b3 in
  let z := int16_le b4 b5 in
  run_listener P accelerometer_listener [b0; b1; b2; b3; b4; b5] w
    = (Ok tt, w, emission "accelerometer:changed" (xyz_data x y z) w)
  /\ run_listener P magnetometer_data_listener [b0; b1; b2; b3; b4; b5] w
    = (Ok tt, w, emission "magnetometer:changed" (xyz_data x y z) w)
  /\ (-32768 <= x <= 32767 /\ x mod 65536 = byte_val b0 + 256 * byte_val b1)
  /\ (-32768 <= y <= 32767 /\ y mod 65536 = byte_val b2 + 256 * byte_val b3)
  /\ (-32768 <= z <= 32767 /\ z mod 65536 = byte_val b4 + 256 * byte_val b5)
  /\ (int16_le Byte.x10 Byte.x00, int16_le Byte.xf0 Byte.xff,
      int16_le Byte.x00 Byte.x04) = (16, -16, 1024).
Proof.
  intros x y z. subst x y z.
  split; [|split; [|split; [|split; [|split]]]].
  - unfold run_listener, bind, lift.
    rewrite (getInt16_le b0 b1), (getInt16_le b2 b3), (getInt16_le b4 b5)
      by reflexivity.
    rewrite _emit_run. reflexivity.
  - unfold run_listener, bind, lift.
    rewrite (getInt16_le b0 b1), (getInt16_le b2 b3), (getInt16_le b4 b5)
      by reflexivity.
    rewrite _emit_run. reflexivity.
  - apply int16_le_range.
  - apply int16_le_range.
  - apply int16_le_range.
  - reflexivity.
Qed.

(** ** Event fan-out *)

Lemma on_run event handler w :
  on event handler w
  = (Ok tt,
     set_this (fun m =>
       with_eventHandlers
         (<[event := registered event w ++ [handler]]> (eventHandlers m)) m) w,
     []).
Proof.
  unfold on, bind, gets, modify, registered.
  destruct (eventHandlers (this w) !! event) as [hs|] eqn:Hl.
  - rewrite bool_decide_eq_true_2 by eauto. cbn.
    f_equal. f_equal. destruct w as [m ? ? ? ?]. unfold set_this; cbn in *.
    f_equal. destruct m; unfold with_eventHandlers; cbn in *. f_equal.
    apply map_eq. intros k. rewrite lookup_alter, lookup_insert.
    repeat case_decide; subst; try congruence. now rewrite Hl.
  - rewrite bool_decide_eq_false_2 by (intros [? ?]; congruence). cbn.
    f_equal. f_equal. destruct w as [m ? ? ? ?]. unfold set_this; cbn in *.
    f_equal. destruct m; unfold with_eventHandlers; cbn in *. f_equal.
    apply map_eq. intros k. rewrite lookup_alter, !lookup_insert.
    repeat case_decide; subst; try congruence. reflexivity.
Qed.

Lemma register_all event (hs : list Handler) w :
  result_of (forEach hs (on event) w) = Ok tt
  /\ trace_of (forEach hs (on event) w) = []
  /\ (hs <> [] ->
      eventHandlers (this (world_of (forEach hs (on event) w))) !! event
      = Some (registered event w ++ hs))
  /\ registered event (world_of (forEach hs (on event) w)) = registered event w ++ hs.
Proof.
  revert w. induction hs as [|h hs IH]; intros w.
  - cbn. rewrite app_nil_r. repeat split. congruence.
  - cbn [forEach]. unfold bind. rewrite on_run.
    set (w1 := set_this _ w).
    destruct (IH w1) as (Hr & Ht & _ & Hreg).
    destruct (forEach hs (on event) w1) as [[r w2] t] eqn:Hrun.
    unfold result_of, world_of, trace_of in *. cbn in *. subst r t.
    assert (Hw1 : registered event w1 = registered event w ++ [h]).
    { unfold registered, w1, set_this, with_eventHandlers. cbn.
      now rewrite lookup_insert_eq. }
    rewrite Hw1, <- app_assoc in Hreg. cbn in Hreg.
    repeat split; try assumption.
    intros _. destruct hs as [|h' hs'].
    + cbn in Hrun. inversion Hrun; subst w2.
      unfold w1, set_this, with_eventHandlers. cbn.
      now rewrite lookup_insert_eq.
    + destruct (IH w1) as (_ & _ & Hsome & _).
      rewrite Hrun in Hsome. unfold world_of in Hsome. cbn in Hsome.
      rewrite Hsome by discriminate. now rewrite Hw1, <- app_assoc.
Qed.

(** C9: for every event and every list of callbacks registered with [on]
    (after the callbacks [registered event w] already there), an emission
    calls all of them in registration order; a callback that throws has its
    exception caught and logged, the callbacks after it are still called,
    no exception leaves [_emit], and the emitter's state (the handler table
    included) is the same after the emission as before. *)
Theorem emit_in_registration_order
    (event : string) (data : EventData) (hs : list Handler) (w : World) :
  let w1 := world_of (forEach hs (on event) w) in
  let all := registered event w ++ hs in
  registered event w1 = all
  /\ result_of (_emit event data w1) = Ok tt
  /\ world_of (_emit event data w1) = w1
  /\ eventHandlers (this (world_of (_emit event data w1))) = eventHandlers (this w1)
  /\ invocations (trace_of (_emit event data w1)) = map hid all
  /\ console_errors (trace_of (_emit event data w1))
     = omap (fun h => hbody h data) all
  /\ trace_of (_emit event data w1)
     = Emitted event data :: handler_calls event data all.
Proof.
  intros w1 all.
  destruct (register_all event hs w) as (_ & _ & _ & Hreg).
  fold w1 in Hreg. fold all in Hreg.
  rewrite _emit_run. unfold result_of, world_of, trace_of. cbn.
  rewrite Hreg. repeat split.
  - apply invocations_handler_calls.
  - clear. induction all as [|h l IH]; [reflexivity|].
    unfold handler_calls, console_errors in *. cbn [flat_map].
    rewrite flat_map_app, IH. cbn.
    destruct (hbody h data); reflexivity.
Qed.

(** ** Running the primitives *)

Lemma _handleDisconnection_run w :
  _handleDisconnection w = (Ok tt, cleared w, disconnection_trace w).
Proof.
  unfold _handleDisconnection, bind, modify, gets. rewrite _emit_run. reflexivity.
Qed.

Lemma forEach_handleDisconnection (n : nat) w :
  forEach (replicate n tt) (fun _ => _handleDisconnection) w
  = (Ok tt, match n with O => w | S _ => cleared w end,
     concat (replicate n (disconnection_trace w))).
Proof.
  revert w. induction n as [|n IH]; intros w; [reflexivity|].
  cbn [replicate forEach]. unfold bind. rewrite _handleDisconnection_run, IH.
  destruct n; reflexivity.
Qed.

Lemma gattserverdisconnected_run w :
  gattserverdisconnected w = (Ok tt, dropped w, dropped_trace w).
Proof.
  unfold gattserverdisconnected, bind, gets, modify.
  rewrite forEach_handleDisconnection. unfold dropped, dropped_trace.
  destruct (disconnect_listeners w); reflexivity.
Qed.

Lemma await_run P op w :
  await P op w
  = (if is_timer op || resolves P (now w) (gatt_connected (waited P w)) op
     then Ok tt else Throw (Rejected op),
     waited P w, Requested op :: waited_trace P w).
Proof.
  unfold await, bind, log, gets, modify, waited, waited_trace. cbn.
  destruct (link_lost P (now w) && gatt_connected w) eqn:Hl.
  - rewrite gattserverdisconnected_run. cbn.
    destruct (is_timer op || resolves P (now w) (gatt_connected (dropped (tick w))) op);
      cbn; rewrite ?app_nil_r; reflexivity.
  - cbn. destruct (is_timer op || resolves P (now w) (gatt_connected w) op);
      reflexivity.
Qed.

Lemma writes_app t1 t2 : writes (t1 ++ t2) = writes t1 ++ writes t2.
Proof. apply flat_map_app. Qed.

Lemma schedule_app t1 t2 : schedule (t1 ++ t2) = schedule t1 ++ schedule t2.
Proof. apply List.filter_app. Qed.

Lemma writes_handler_calls event data hs : writes (handler_calls event data hs) = [].
Proof.
  induction hs as [|h hs IH]; [reflexivity|].
  unfold handler_calls in *. cbn [flat_map]. rewrite writes_app, IH.
  destruct (hbody h data); reflexivity.
Qed.

Lemma schedule_handler_calls event data hs : schedule (handler_calls event data hs) = [].
Proof.
  induction hs as [|h hs IH]; [reflexivity|].
  unfold handler_calls in *. cbn [flat_map]. rewrite schedule_app, IH.
  destruct (hbody h data); reflexivity.
Qed.

Lemma writes_emission event data w : writes (emission event data w) = [].
Proof. unfold emission. cbn. apply writes_handler_calls. Qed.

Lemma writes_dropped_trace w : writes (dropped_trace w) = [].
Proof.
  unfold dropped_trace. induction (disconnect_listeners w) as [|n IH]; [reflexivity|].
  cbn [replicate concat]. rewrite writes_app, IH.
  unfold disconnection_trace. now rewrite writes_emission.
Qed.

Lemma schedule_dropped_trace w : schedule (dropped_trace w) = [].
Proof.
  unfold dropped_trace. induction (disconnect_listeners w) as [|n IH]; [reflexivity|].
  cbn [replicate concat]. rewrite schedule_app, IH.
  unfold disconnection_trace, emission. cbn. now rewrite schedule_handler_calls.
Qed.

Lemma writes_waited_trace P w : writes (waited_trace P w) = [].
Proof.
  unfold waited_trace. destruct (_ && _); [apply writes_dropped_trace | reflexivity].
Qed.

Lemma schedule_waited_trace P w : schedule (waited_trace P w) = [].
Proof.
  unfold waited_trace. destruct (_ && _); [apply schedule_dropped_trace | reflexivity].
Qed.

(** ** Outgoing writers *)

Lemma to_scalar_values_cons (u : Z) (rest : JsString) :
  to_scalar_values (u :: rest)
  = if is_high_surrogate u then
      match rest with
      | v :: rest' =>
          if is_low_surrogate v
          then (0x10000 + (u - 0xD800) * 0x400 + (v - 0xDC00)) :: to_scalar_values rest'
          else 0xFFFD :: to_scalar_values rest
      | [] => [0xFFFD]
      end
    else if is_low_surrogate u then 0xFFFD :: to_scalar_values rest
    else u :: to_scalar_values rest.
Proof. destruct rest; reflexivity. Qed.

Lemma to_scalar_values_newline (s : JsString) :
  to_scalar_values (s ++ newline) = to_scalar_values s ++ [10].
Proof.
  enough (H : to_scalar_values (s ++ newline) = to_scalar_values s ++ [10]
              /\ forall u, to_scalar_values (u :: (s ++ newline))
                           = to_scalar_values (u :: s) ++ [10]) by apply H.
  induction s as [|v s [IH1 IH2]].
  - split; [reflexivity|]. intros u. cbn.
    destruct (is_high_surrogate u); [reflexivity|].
    destruct (is_low_surrogate u); reflexivity.
  - split; [apply IH2|]. intros u.
    change ((v :: s) ++ newline) with (v :: (s ++ newline)).
    rewrite (to_scalar_values_cons u (v :: s ++ newline)).
    rewrite (to_scalar_values_cons u (v :: s)).
    destruct (is_high_surrogate u).
    + destruct (is_low_surrogate v).
      * now rewrite IH1.
      * now rewrite IH2.
    + destruct (is_low_surrogate u); now rewrite IH2.
Qed.

Lemma encode_newline (text : JsString) :
  TextEncoder_encode (text ++ newline) = TextEncoder_encode text ++ [Byte.x0a].
Proof.
  unfold TextEncoder_encode. rewrite to_scalar_values_newline.
  rewrite map_app, concat_app. reflexivity.
Qed.

Arguments await : simpl never.
Arguments _emit : simpl never.
Arguments waited : simpl never.
Arguments waited_trace : simpl never.
Arguments emission : simpl never.
Arguments TextEncoder_encode : simpl never.

Lemma sendUART_run P text w :
  sendUART P text w
  = match characteristics (this w) !! "uart:rx" with
    | Some c => await P (writeValue c (TextEncoder_encode text ++ [Byte.x0a])) w
    | None => (Throw (Error "UART service not started"), w, [])
    end.
Proof.
  unfold sendUART, bind, gets. rewrite encode_newline.
  destruct (characteristics (this w) !! "uart:rx") as [c|]; cbn.
  - rewrite !await_run. reflexivity.
  - reflexivity.
Qed.

(** ** Symbolic execution *)

Lemma spec_tuple {A} (r : Result A) w t Q : Q r w t -> spec (r, w, t) Q.
Proof. exact (fun H => H). Qed.

Lemma spec_conseq {A} (x : Result A * World * list Obs) (Q' Q : _ -> _ -> _ -> Prop) :
  spec x Q' -> (forall r w t, Q' r w t -> Q r w t) -> spec x Q.
Proof. unfold spec. auto. Qed.

Lemma spec_bind {A B} (c : M A) (k : A -> M B) w Q :
  spec (c w) (fun r w1 t1 =>
    match r with
    | Ok a => spec (k a w1) (fun r2 w2 t2 => Q r2 w2 (t1 ++ t2))
    | Throw e => Q (Throw e) w1 t1
    end) ->
  spec (bind c k w) Q.
Proof.
  unfold spec, bind, result_of, world_of, trace_of.
  destruct (c w) as [[[a|e] w1] t1]; cbn; [|auto].
  destruct (k a w1) as [[? ?] ?]. auto.
Qed.

Lemma spec_try_catch {A} (c : M A) (h : JsError -> M A) w Q :
  spec (c w) (fun r w1 t1 =>
    match r with
    | Ok a => Q (Ok a) w1 t1
    | Throw e => spec (h e w1) (fun r2 w2 t2 => Q r2 w2 (t1 ++ t2))
    end) ->
  spec (try_catch c h w) Q.
Proof.
  unfold spec, try_catch, result_of, world_of, trace_of.
  destruct (c w) as [[[a|e] w1] t1]; cbn; [auto|].
  destruct (h e w1) as [[? ?] ?]. auto.
Qed.

Lemma spec_emit event data w Q :
  Q (Ok tt) w (emission event data w) -> spec (_emit event data w) Q.
Proof. rewrite _emit_run. exact (fun H => H). Qed.

Lemma spec_await P op w Q :
  (if is_timer op || resolves P (now w) (gatt_connected (waited P w)) op
   then Q (Ok tt) (waited P w) (Requested op :: waited_trace P w)
   else Q (Throw (Rejected op)) (waited P w) (Requested op :: waited_trace P w)) ->
  spec (await P op w) Q.
Proof.
  rewrite await_run.
  destruct (is_timer op || resolves P _ _ op); exact (fun H => H).
Qed.

Lemma spec_eq {A} (x y : Result A * World * list Obs) :
  spec x (fun r w t => (r, w, t) = y) -> x = y.
Proof. destruct x as [[? ?] ?]. exact (fun H => H). Qed.

Arguments spec : simpl never.

(** Run the code one statement at a time; a question to the platform, or a
    test on the state, splits the goal. *)
Ltac run_prim :=
  match goal with
  | |- spec (ret _ _) _ => apply spec_tuple
  | |- spec (throw _ _) _ => apply spec_tuple
  | |- spec (gets _ _) _ => apply spec_tuple
  | |- spec (modify _ _) _ => apply spec_tuple
  | |- spec (log _ _) _ => apply spec_tuple
  | |- spec (lift _ _) _ => apply spec_tuple
  end.

Ltac run_step :=
  lazymatch goal with
  | |- spec (bind _ _ _) _ => apply spec_bind
  | |- spec (try_catch _ _ _) _ => apply spec_try_catch
  | |- spec (_emit _ _ _) _ => apply spec_emit
  | |- spec (await _ _ _) _ => apply spec_await; cbn [is_timer orb]
  | |- spec ((if ?b then _ else _) _) _ => destruct b eqn:?
  | |- spec (match ?o with Some _ => _ | None => _ end _) _ => destruct o eqn:?
  | |- (if ?b then _ else _) => destruct b eqn:?
  | |- spec _ _ => run_prim
  end; cbv beta iota.

Ltac run_code :=
  unfold require_connected, services_set, characteristics_set,
    addEventListener, console_log, console_error;
  repeat run_step.

Lemma writes_nil : writes [] = [].
Proof. reflexivity. Qed.

Lemma writes_requested op t :
  writes (Requested op :: t)
  = match op with writeValue u bs => [(u, bs)] | _ => [] end ++ writes t.
Proof. reflexivity. Qed.

Lemma schedule_nil : schedule [] = [].
Proof. reflexivity. Qed.

Lemma schedule_requested op t :
  schedule (Requested op :: t)
  = (if is_timer op then [Requested op] else []) ++ schedule t.
Proof. destruct op; reflexivity. Qed.

Lemma schedule_emitted event data t :
  schedule (Emitted event data :: t)
  = (if String.eqb event "service:started" || String.eqb event "service:failed"
     then [Emitted event data] else []) ++ schedule t.
Proof.
  unfold schedule. cbn [List.filter is_service_event].
  destruct (_ || _); reflexivity.
Qed.

Lemma schedule_emission event data w :
  schedule (emission event data w)
  = if String.eqb event "service:started" || String.eqb event "service:failed"
    then [Emitted event data] else [].
Proof.
  unfold emission. rewrite schedule_emitted, schedule_handler_calls.
  now rewrite app_nil_r.
Qed.

Create Rewrite HintDb trace.
#[global] Hint Rewrite writes_app writes_emission writes_waited_trace
  writes_dropped_trace writes_nil writes_requested
  schedule_app schedule_emission schedule_waited_trace
  schedule_dropped_trace schedule_nil schedule_requested schedule_emitted
  @app_nil_r @app_nil_l : trace.

(** Reduce a projection of a trace to the requests and events it keeps. *)
Ltac trace_simpl :=
  autorewrite with trace;
  cbn [is_timer String.eqb Ascii.eqb Bool.eqb orb andb app].

(** ** Projections of a trace, continued *)

Lemma waited_up P w :
  gatt_connected (waited P w) = true ->
  waited P w = tick w /\ waited_trace P w = [] /\ gatt_connected w = true.
Proof.
  unfold waited, waited_trace.
  destruct (link_lost P (now w) && gatt_connected w) eqn:Hl.
  - unfold dropped. destruct (disconnect_listeners (tick w)); cbn; discriminate.
  - cbn. auto.
Qed.

Lemma requests_app t1 t2 : requests (t1 ++ t2) = requests t1 ++ requests t2.
Proof. apply flat_map_app. Qed.

Lemma requests_nil : requests [] = [].
Proof. reflexivity. Qed.

Lemma requests_requested op t : requests (Requested op :: t) = op :: requests t.
Proof. reflexivity. Qed.

Lemma requests_log s t : requests (ConsoleLog s :: t) = requests t.
Proof. reflexivity. Qed.

Lemma requests_handler_calls event data hs : requests (handler_calls event data hs) = [].
Proof.
  induction hs as [|h hs IH]; [reflexivity|].
  unfold handler_calls in *. cbn [flat_map]. rewrite requests_app, IH.
  destruct (hbody h data); reflexivity.
Qed.

Lemma requests_emission event data w : requests (emission event data w) = [].
Proof. unfold emission. cbn. apply requests_handler_calls. Qed.

Lemma requests_dropped_trace w : requests (dropped_trace w) = [].
Proof.
  unfold dropped_trace. induction (disconnect_listeners w) as [|n IH]; [reflexivity|].
  cbn [replicate concat]. rewrite requests_app, IH.
  unfold disconnection_trace. now rewrite requests_emission.
Qed.

Lemma requests_waited_trace P w : requests (waited_trace P w) = [].
Proof.
  unfold waited_trace. destruct (_ && _); [apply requests_dropped_trace | reflexivity].
Qed.

Lemma console_logs_app t1 t2 :
  console_logs (t1 ++ t2) = console_logs t1 ++ console_logs t2.
Proof. apply flat_map_app. Qed.

Lemma console_logs_nil : console_logs [] = [].
Proof. reflexivity. Qed.

Lemma console_logs_requested op t : console_logs (Requested op :: t) = console_logs t.
Proof. reflexivity. Qed.

Lemma console_logs_log s t : console_logs (ConsoleLog s :: t) = s :: console_logs t.
Proof. reflexivity. Qed.

Lemma console_logs_handler_calls event data hs :
  console_logs (handler_calls event data hs) = [].
Proof.
  induction hs as [|h hs IH]; [reflexivity|].
  unfold handler_calls in *. cbn [flat_map]. rewrite console_logs_app, IH.
  destruct (hbody h data); reflexivity.
Qed.

Lemma console_logs_emission event data w : console_logs (emission event data w) = [].
Proof. unfold emission. cbn. apply console_logs_handler_calls. Qed.

Lemma console_logs_dropped_trace w : console_logs (dropped_trace w) = [].
Proof.
  unfold dropped_trace. induction (disconnect_listeners w) as [|n IH]; [reflexivity|].
  cbn [replicate concat]. rewrite console_logs_app, IH.
  unfold disconnection_trace. now rewrite console_logs_emission.
Qed.

Lemma console_logs_waited_trace P w : console_logs (waited_trace P w) = [].
Proof.
  unfold waited_trace. destruct (_ && _); [apply console_logs_dropped_trace | reflexivity].
Qed.

Create Rewrite HintDb obs.
#[global] Hint Rewrite requests_app requests_nil requests_requested requests_log
  requests_emission requests_waited_trace requests_dropped_trace
  console_logs_app console_logs_nil console_logs_requested console_logs_log
  console_logs_emission console_logs_waited_trace console_logs_dropped_trace
  @app_nil_r @app_nil_l : obs.

Ltac obs_simpl := autorewrite with obs; cbn [app].

(** From "the link is up at the end" back to "the link was never lost". *)
Ltac no_loss H :=
  repeat
    (cbn [gatt_connected put_service put_characteristic add_value_listener
          set_this tick] in H;
     lazymatch type of H with
     | gatt_connected (waited ?P ?X) = true =>
         let Heq := fresh "Heq" in
         let Htr := fresh "Htr" in
         let Hup := fresh "Hup" in
         destruct (waited_up P X H) as (Heq & Htr & Hup);
         rewrite ?Heq, ?Htr; clear H Heq Htr; rename Hup into H
     end).

Ltac link_stays_up :=
  lazymatch goal with
  | H : gatt_connected _ = true |- _ => no_loss H
  end.

Example connected_world_started :
  result_of (connect ideal_platform (fresh_world (constructor no_config))) = Ok tt
  /\ isConnected connected_world = true
  /\ map (fun s => isServiceStarted s connected_world)
       ["uart"; "temperature"; "accelerometer"; "buttons"; "magnetometer"; "led"]
     = [true; true; true; true; true; false]
  /\ characteristics (this connected_world) !! "uart:rx" = Some UART_RX.
Proof. vm_compute. repeat split. Qed.

(** C3: for every string, [sendUART] writes the UTF-8 encoding of the
    string followed by exactly one newline byte (the newline is appended to
    the string before encoding), and [sendTextToLED] writes the UTF-8
    encoding with nothing appended; on a connected instance "hi" is
    written to UART as the three bytes h, i, LF and "A" to the LED as one
    byte. *)
Theorem send_text_encoding (P : Platform) (text : JsString) (w : World) :
  sendUART P text w
    = match characteristics (this w) !! "uart:rx" with
      | Some c => await P (writeValue c (TextEncoder_encode (text ++ newline))) w
      | None => (Throw (Error "UART service not started"), w, [])
      end
  /\ TextEncoder_encode (text ++ newline) = TextEncoder_encode text ++ [Byte.x0a]
  /\ writes (trace_of (sendUART P text w))
     = match characteristics (this w) !! "uart:rx" with
       | Some c => [(c, TextEncoder_encode text ++ [Byte.x0a])]
       | None => []
       end
  /\ spec (sendTextToLED P text w) (fun r _ t =>
       match r with
       | Ok _ => writes t = [(LED_TEXT, TextEncoder_encode text)]
       | Throw _ => writes t = [] \/ writes t = [(LED_TEXT, TextEncoder_encode text)]
       end)
  /\ writes (trace_of (sendUART ideal_platform (js "hi") connected_world))
     = [(UART_RX, [Byte.x68; Byte.x69; Byte.x0a])]
  /\ writes (trace_of (sendTextToLED ideal_platform (js "A") connected_world))
     = [(LED_TEXT, [Byte.x41])].
Proof.
  split; [|split; [|split; [|split; [|split]]]].
  - rewrite sendUART_run, encode_newline. reflexivity.
  - apply encode_newline.
  - rewrite sendUART_run.
    destruct (characteristics (this w) !! "uart:rx") as [c|]; [|reflexivity].
    rewrite await_run. unfold trace_of. cbn [snd]. now trace_simpl.
  - unfold sendTextToLED. run_code; trace_simpl; auto.
  - vm_compute. reflexivity.
  - vm_compute. reflexivity.
Qed.

(** C8 (as amended): a send fails and writes nothing when there is no
    active link: [sendTextToLED] fails with "GATT not connected", and
    [sendUART], which does not look at the link itself, fails with "UART
    service not started" because a lost link has emptied the registry.
    [sendUART] fails with "UART service not started", writing nothing,
    exactly when [uart:rx] is not in the characteristic registry, and
    otherwise makes the write.  [sendTextToLED] does not fail when the LED
    service was never opened: on an active link it opens the service on
    demand, keeps it in the registry, gets the characteristic and writes,
    and it fails only when the platform rejects one of these requests.
    The write is made only when both preconditions hold: for the UART the
    link is up and [uart:rx] is registered; for the LED the link was up
    and the service and the characteristic were obtained first. *)
Theorem send_guards (P : Platform) (text : JsString) (w : World) :
  match characteristics (this w) !! "uart:rx" with
  | None =>
      sendUART P text w = (Throw (Error "UART service not started"), w, [])
  | Some c =>
      spec (sendUART P text w) (fun r _ t =>
        writes t = [(c, TextEncoder_encode (text ++ newline))]
        /\ (r = Ok tt
            \/ r = Throw (Rejected (writeValue c (TextEncoder_encode (text ++ newline))))))
  end
  /\ (if server_connected w
      then spec (sendTextToLED P text w) (fun r _ t =>
             match r with
             | Ok _ => writes t = [(LED_TEXT, TextEncoder_encode text)]
             | Throw e => exists op, e = Rejected op
             end)
      else sendTextToLED P text w
           = (Throw (Error "GATT not connected"), w,
              emission "error" (error_data "led" (Error "GATT not connected")) w))
  /\ (consistent w -> gatt_connected w = false ->
      sendUART P text w = (Throw (Error "UART service not started"), w, []))
  /\ (consistent w -> writes (trace_of (sendUART P text w)) <> [] ->
      gatt_connected w = true /\ is_Some (characteristics (this w) !! "uart:rx"))
  /\ spec (sendTextToLED P text w) (fun r w' t =>
       requests t `prefix_of` led_requests text w
       /\ (writes t <> [] ->
           server_connected w = true /\ requests t = led_requests text w)
       /\ match r with
          | Ok _ =>
              requests t = led_requests text w
              /\ (if gatt_connected w'
                  then services (this w') !! "led"
                       = Some (default LED_SERVICE (services (this w) !! "led"))
                  else True)
          | Throw e =>
              (e = Error "GATT not connected" /\ requests t = [])
              \/ (server_connected w = true
                  /\ exists op, e = Rejected op /\ last (requests t) = Some op)
          end).
Proof.
  split; [|split; [|split; [|split]]].
  - unfold sendUART.
    destruct (characteristics (this w) !! "uart:rx") as [c|] eqn:Hc.
    + apply spec_bind. apply spec_tuple. rewrite Hc. cbv beta iota.
      apply spec_await. cbn [is_timer orb].
      destruct (resolves P _ _ _); trace_simpl; auto.
    + unfold bind, gets. rewrite Hc. reflexivity.
  - destruct (server_connected w) eqn:Hs.
    + unfold sendTextToLED.
      run_code; try (rewrite Hs in *; discriminate); trace_simpl; eauto.
    + apply spec_eq. unfold sendTextToLED.
      run_code; try (rewrite Hs in *; discriminate).
      cbn [app]. now rewrite app_nil_r.
  - intros Hw Hdown. unfold consistent in Hw. rewrite Hdown in Hw.
    destruct Hw as [_ Hc]. rewrite sendUART_run, Hc, lookup_empty. reflexivity.
  - intros Hw Hwr. rewrite sendUART_run in Hwr.
    destruct (characteristics (this w) !! "uart:rx") as [c|] eqn:Hc;
      [|now destruct Hwr].
    split; [|eauto].
    destruct (gatt_connected w) eqn:Hup; [reflexivity|].
    unfold consistent in Hw. rewrite Hup in Hw. destruct Hw as [_ He].
    rewrite He, lookup_empty in Hc. discriminate.
  - unfold sendTextToLED, led_requests. run_code.
    all: try lazymatch goal with
         | H : negb (server_connected _) = false |- _ => apply negb_false_iff in H
         end.
    all: cbn [app]; split; [|split].
    all: try (obs_simpl; cbn [app]; now eexists).
    all: try (intros Hwr; exfalso; apply Hwr; now trace_simpl).
    all: try (intros _; split; [assumption | obs_simpl; reflexivity]).
    all: try (left; split; [reflexivity | obs_simpl; reflexivity]).
    all: try (right; split; [assumption | eexists; split; [reflexivity|]];
              obs_simpl; reflexivity).
    all: split; [obs_simpl; reflexivity|].
    all: lazymatch goal with
         | |- (if ?b then _ else _) =>
             let H := fresh "Hlink" in
             destruct b eqn:H; [no_loss H | exact I]
         end.
    all: cbn [this services put_service set_this with_services tick].
    + assumption.
    + apply lookup_insert_eq.
Qed.

Lemma send_guards_witness :
  gatt_connected connected_world = true
  /\ is_Some (characteristics (this connected_world) !! "uart:rx").
Proof.
  apply (proj1 (proj2 (proj2 (proj2 (send_guards ideal_platform (js "hi")
                                       connected_world))))).
  - vm_compute. lia.
  - vm_compute. discriminate.
Defined.

(** C8 (as stated) fails.  On an instance that never connected,
    [sendUART] does not fail with the not-connected error but with "UART
    service not started"; and on a connected instance whose LED service was
    never opened, [sendTextToLED] does not fail: it opens the service and
    writes. *)
Lemma send_guards_counterexample :
  let w0 := fresh_world (constructor no_config) in
  isConnected w0 = false
  /\ result_of (sendUART ideal_platform (js "hi") w0)
     = Throw (Error "UART service not started")
  /\ result_of (sendUART ideal_platform (js "hi") w0)
     <> Throw (Error "GATT not connected")
  /\ isServiceStarted "led" connected_world = false
  /\ result_of (sendTextToLED ideal_platform (js "A") connected_world) = Ok tt
  /\ writes (trace_of (sendTextToLED ideal_platform (js "A") connected_world))
     = [(LED_TEXT, [Byte.x41])].
Proof. vm_compute. repeat split. discriminate. Qed.

(** ** The start methods *)

Arguments static : simpl never.
Arguments consistent : simpl never.

Lemma static_put_service k h w : static (put_service k h w) = static w.
Proof. reflexivity. Qed.

Lemma static_put_characteristic k h w : static (put_characteristic k h w) = static w.
Proof. reflexivity. Qed.

Lemma static_add_value_listener u l w : static (add_value_listener u l w) = static w.
Proof. reflexivity. Qed.

Lemma static_dropped w : static (dropped w) = static w.
Proof. unfold dropped. destruct (disconnect_listeners w) eqn:H; unfold static; cbn; now rewrite ?H. Qed.

Lemma static_waited P w : static (waited P w) = static w.
Proof.
  unfold waited. destruct (_ && _); [rewrite static_dropped|]; reflexivity.
Qed.

Lemma consistent_waited P w : consistent w -> consistent (waited P w).
Proof.
  unfold consistent, waited. intros H.
  destruct (link_lost P (now w) && gatt_connected w) eqn:Hl; [|exact H].
  apply andb_prop in Hl as [_ Hup]. rewrite Hup in H.
  unfold dropped. cbn [disconnect_listeners tick].
  destruct (disconnect_listeners w) as [|n] eqn:Hn; [lia|].
  cbn. split; reflexivity.
Qed.

Lemma consistent_put_service k h w :
  gatt_connected w = true -> consistent w -> consistent (put_service k h w).
Proof. unfold consistent. cbn. now intros ->. Qed.

Lemma consistent_put_characteristic k h w :
  gatt_connected w = true -> consistent w -> consistent (put_characteristic k h w).
Proof. unfold consistent. cbn. now intros ->. Qed.

Lemma consistent_add_value_listener u l w :
  consistent w -> consistent (add_value_listener u l w).
Proof. exact (fun H => H). Qed.

Lemma resolved_link_up P n b op :
  compliant P -> is_gatt op = true -> resolves P n b op = true -> b = true.
Proof.
  intros Hc Hg Hr. destruct b; [reflexivity|]. rewrite Hc in Hr by assumption.
  discriminate.
Qed.

Ltac link_is_up :=
  cbn [gatt_connected put_service put_characteristic add_value_listener set_this];
  eapply resolved_link_up; [eassumption | | eassumption]; reflexivity.

Ltac consistency :=
  repeat first
    [ assumption
    | apply consistent_add_value_listener
    | apply consistent_waited
    | apply consistent_put_service; [link_is_up|]
    | apply consistent_put_characteristic; [link_is_up|] ].

Ltac static_simpl :=
  rewrite ?static_put_service, ?static_put_characteristic,
    ?static_add_value_listener, ?static_waited.

Ltac start_leaf :=
  unfold start_post;
  split; [repeat static_simpl; reflexivity|];
  split; [trace_simpl; reflexivity|];
  split; [trace_simpl; reflexivity|];
  intros ? ?; consistency.

Lemma startUART_spec P w : spec (startUART P w) (start_post P "uart" w).
Proof. unfold startUART. run_code; start_leaf. Qed.

Lemma startTemperature_spec P w :
  spec (startTemperature P w) (start_post P "temperature" w).
Proof. unfold startTemperature. run_code; start_leaf. Qed.

Lemma startAccelerometer_spec P w :
  spec (startAccelerometer P w) (start_post P "accelerometer" w).
Proof. unfold startAccelerometer. run_code; start_leaf. Qed.

Lemma startButtons_spec P w : spec (startButtons P w) (start_post P "buttons" w).
Proof. unfold startButtons. run_code; start_leaf. Qed.

Lemma startMagnetometer_spec P w :
  spec (startMagnetometer P w) (start_post P "magnetometer" w).
Proof. unfold startMagnetometer. run_code; start_leaf. Qed.

(** ** The service-start sequence *)

Lemma static_config w w' : static w' = static w -> config (this w') = config (this w).
Proof. unfold static. congruence. Qed.

Lemma spec_case {A} (x : Result A * World * list Obs) Q :
  (forall r w t, r = result_of x -> w = world_of x -> t = trace_of x -> Q r w t) ->
  spec x Q.
Proof. unfold spec. auto. Qed.

Lemma start_one_spec P e w :
  (forall w0, spec (method e w0) (start_post P (entry_name e) w0)) ->
  spec (start_one P e w) (one_post P e w).
Proof.
  intros Hm. unfold start_one, one_post. apply spec_try_catch, spec_bind.
  apply spec_case. intros r w1 t1 Hr Hw Ht.
  pose proof (Hm w) as Hs. unfold spec in Hs. rewrite <- Hr, <- Hw, <- Ht in Hs.
  rewrite <- Hr. clear Hr Hw Ht.
  destruct Hs as (Hst & Hwr & Hsch & Hcons).
  destruct r as [[]|err].
  - run_code. rewrite static_waited, (static_config _ _ Hst).
    repeat split; auto.
    + trace_simpl. now rewrite Hwr.
    + trace_simpl. now rewrite Hsch.
    + intros. apply consistent_waited. auto.
  - destruct (optional e) eqn:Ho; cbn [negb]; run_code.
    + rewrite app_nil_r. cbn. rewrite Ho. auto.
    + cbn. rewrite Ho. repeat split; auto.
      * trace_simpl. now rewrite Hwr.
      * trace_simpl. now rewrite Hsch.
Qed.

Lemma loop_spec P (es : list ServiceEntry) :
  Forall (fun e => forall w, spec (start_one P e w) (one_post P e w)) es ->
  forall w, spec (forEach es (start_one P) w) (loop_post P es w).
Proof.
  induction 1 as [|e es He Hes IH]; intros w.
  - apply spec_tuple. unfold loop_post. auto.
  - cbn [forEach]. apply spec_bind. apply spec_case. intros r w1 t1 Hr Hw Ht.
    pose proof (He w) as H1. unfold spec in H1. rewrite <- Hr, <- Hw, <- Ht in H1.
    destruct H1 as (-> & Hst & Hwr & Hsch & Hcons).
    eapply spec_conseq; [apply IH|]. cbv beta.
    intros r2 w2 t2 (-> & Hst2 & Hwr2 & Hsch2 & Hcons2).
    unfold loop_post. repeat split.
    + congruence.
    + trace_simpl. now rewrite Hwr, Hwr2.
    + trace_simpl. rewrite Hsch, Hsch2. cbn [expected_schedule]. now rewrite Hw.
    + auto.
Qed.

Lemma service_table_spec P :
  Forall (fun e => forall w, spec (start_one P e w) (one_post P e w)) (service_table P).
Proof.
  unfold service_table.
  repeat apply List.Forall_cons; [..|apply List.Forall_nil];
    intros w; apply start_one_spec; intros w0; cbn [method entry_name].
  - apply startUART_spec.
  - apply startTemperature_spec.
  - apply startAccelerometer_spec.
  - apply startButtons_spec.
  - apply startMagnetometer_spec.
Qed.

(** Every run of the sequence resolves; its service events and pauses are
    the first pause of 500 ms followed by the turns of the five services in
    the order of the table. *)
Lemma _startAllServices_spec P w :
  spec (_startAllServices P w) (fun r w' t =>
    r = Ok tt
    /\ static w' = static w
    /\ writes t = []
    /\ schedule t
       = Requested (sleep 500) :: expected_schedule P (service_table P) (waited P w)
    /\ (compliant P -> consistent w -> consistent w')).
Proof.
  unfold _startAllServices. apply spec_bind, spec_await. cbn [is_timer orb].
  eapply spec_conseq; [apply loop_spec, service_table_spec|]. cbv beta.
  intros r w' t (-> & Hst & Hwr & Hsch & Hcons).
  rewrite static_waited in Hst. repeat split; auto.
  - trace_simpl. now rewrite Hwr.
  - trace_simpl. now rewrite Hsch.
  - intros. apply Hcons; auto using consistent_waited.
Qed.

Lemma failures_app s t1 t2 : failures s (t1 ++ t2) = (failures s t1 + failures s t2)%nat.
Proof. unfold failures. now rewrite List.filter_app, length_app. Qed.

Lemma failures_schedule s t : failures s (schedule t) = failures s t.
Proof.
  unfold failures, schedule. induction t as [|o t IH]; [reflexivity|].
  cbn [List.filter].
  destruct (is_service_event o) eqn:Hs; cbn [List.filter].
  - destruct (is_failure_of s o); cbn [length]; now rewrite IH.
  - replace (is_failure_of s o) with false; [exact IH|].
    destruct o as [ev d| | | |]; try reflexivity. cbn in Hs |- *.
    destruct d; try reflexivity.
    apply orb_false_elim in Hs as [_ ->]. reflexivity.
Qed.

Lemma failures_attempt s e r d :
  failures s (attempt_schedule e r d)
  = if String.eqb (entry_name e) s
    then match r with Ok _ => 0 | Throw _ => if optional e then 1 else 2 end%nat
    else 0%nat.
Proof.
  unfold failures, attempt_schedule.
  destruct r as [[]|err]; cbn.
  - now destruct (String.eqb (entry_name e) s).
  - destruct (optional e); cbn; destruct (String.eqb (entry_name e) s); reflexivity.
Qed.

Lemma failures_expected_absent P s (es : list ServiceEntry) w :
  s ∉ map entry_name es -> failures s (expected_schedule P es w) = 0%nat.
Proof.
  revert w. induction es as [|e es IH]; intros w Hs; [reflexivity|].
  cbn [expected_schedule]. rewrite failures_app, failures_attempt.
  cbn [map] in Hs. apply not_elem_of_cons in Hs as [Hne Hs].
  rewrite IH by assumption.
  destruct (String.eqb_spec (entry_name e) s); [congruence|reflexivity].
Qed.

Lemma failures_expected P (es : list ServiceEntry) :
  NoDup (map entry_name es) ->
  forall k e w, es !! k = Some e ->
  failures (entry_name e) (expected_schedule P es w)
  = match result_of (method e
            (fold_left (fun w0 e0 => world_of (start_one P e0 w0)) (take k es) w)) with
    | Ok _ => 0
    | Throw _ => if optional e then 1 else 2
    end%nat.
Proof.
  induction es as [|e0 es IH]; intros Hnd k e w Hk; [discriminate|].
  cbn [map] in Hnd. apply NoDup_cons in Hnd as [Hnotin Hnd].
  cbn [expected_schedule]. rewrite failures_app, failures_attempt.
  destruct k as [|k]; cbn in Hk.
  - injection Hk as ->. rewrite String.eqb_refl.
    rewrite failures_expected_absent by assumption. cbn. lia.
  - assert (Hin : entry_name e ∈ map entry_name es).
    { apply list_elem_of_fmap. exists e. split; [reflexivity|].
      eapply list_elem_of_lookup_2; eassumption. }
    destruct (String.eqb_spec (entry_name e0) (entry_name e)) as [Heq|_].
    + rewrite Heq in Hnotin. contradiction.
    + cbn [take fold_left]. now rewrite (IH Hnd k e _ Hk).
Qed.

Lemma service_names P :
  map (fun e => (entry_name e, optional e)) (service_table P)
  = [("uart", false); ("temperature", false); ("accelerometer", false);
     ("buttons", false); ("magnetometer", true)].
Proof. reflexivity. Qed.

Lemma service_names_NoDup P : NoDup (map entry_name (service_table P)).
Proof.
  cbn. repeat (apply NoDup_cons_2; [rewrite ?not_elem_of_cons; repeat split;
                                    solve [discriminate | apply not_elem_of_nil]|]).
  apply NoDup_nil_2.
Qed.

(** C10: in the service-start sequence, when the start method of a
    service of the table fails in its turn, [service:failed] is emitted for
    that service exactly twice if it is required (once by the method's
    catch block, once by the loop's) and exactly once if it is optional;
    the magnetometer is the only optional one.  When the method succeeds
    no [service:failed] is emitted for it. *)
Theorem service_failed_emitted_twice
    (P : Platform) (w : World) (k : nat) (e : ServiceEntry) :
  service_table P !! k = Some e ->
  failures (entry_name e) (trace_of (_startAllServices P w))
    = match result_of (method e (turn_world P k w)) with
      | Ok _ => 0
      | Throw _ => if optional e then 1 else 2
      end%nat
  /\ map (fun e => (entry_name e, optional e)) (service_table P)
     = [("uart", false); ("temperature", false); ("accelerometer", false);
        ("buttons", false); ("magnetometer", true)].
Proof.
  intros Hk. split; [|apply service_names].
  pose proof (_startAllServices_spec P w) as (_ & _ & _ & Hsch & _).
  rewrite <- failures_schedule, Hsch.
  change (Requested (sleep 500) :: ?t) with ([Requested (sleep 500)] ++ t).
  rewrite failures_app. cbn [failures List.filter is_failure_of length Nat.add].
  unfold turn_world. now apply failures_expected; [apply service_names_NoDup|].
Qed.

(** The count at work: the UART service cannot be opened, [startUART]
    fails in the first turn, and [service:failed] is emitted twice for
    "uart". *)
Lemma service_failed_emitted_twice_witness :
  failures "uart"
    (trace_of (_startAllServices (without_service UART_SERVICE) linked_world)) = 2%nat.
Proof.
  exact (proj1 (service_failed_emitted_twice (without_service UART_SERVICE)
                  linked_world 0
                  {| entry_name := "uart";
                     method := startUART (without_service UART_SERVICE);
                     optional := false |} eq_refl)).
Defined.

(** One turn of the loop, whatever the start method is: it never throws;
    after a success it pauses; after a failure it does not pause, and emits
    [service:failed] unless the entry is optional. *)
Lemma start_one_run P e w :
  start_one P e w
  = let w1 := world_of (method e w) in
    match result_of (method e w) with
    | Ok _ =>
        (Ok tt, waited P w1,
         trace_of (method e w)
         ++ Requested (sleep (serviceDelay (config (this w1)))) :: waited_trace P w1)
    | Throw error =>
        (Ok tt, w1,
         trace_of (method e w)
         ++ (if optional e then []
             else emission "service:failed" (failed_data (entry_name e) error) w1))
    end.
Proof.
  unfold start_one, try_catch, bind, gets, result_of, world_of, trace_of.
  destruct (method e w) as [[[[]|err] w1] t1]; cbn [fst snd].
  - rewrite await_run. reflexivity.
  - destruct (optional e); cbn; rewrite ?_emit_run; cbn; rewrite ?app_nil_r;
      reflexivity.
Qed.

Lemma forEach_start_one P (es : list ServiceEntry) w :
  result_of (forEach es (start_one P) w) = Ok tt
  /\ trace_of (forEach es (start_one P) w) = turns_trace P es w.
Proof.
  revert w. induction es as [|e es IH]; intros w; [split; reflexivity|].
  cbn [forEach turns_trace]. unfold bind. rewrite start_one_run. cbv zeta.
  destruct (result_of (method e w)) as [[]|err].
  - destruct (IH (waited P (world_of (method e w)))) as [Hr Ht].
    destruct (forEach es (start_one P) _) as [[r w2] t2].
    unfold result_of, trace_of in *. cbn [fst snd] in *. subst r t2.
    split; [reflexivity|]. now rewrite <- app_assoc.
  - destruct (IH (world_of (method e w))) as [Hr Ht].
    destruct (forEach es (start_one P) _) as [[r w2] t2].
    unfold result_of, trace_of in *. cbn [fst snd] in *. subst r t2.
    split; [reflexivity|]. now rewrite <- app_assoc.
Qed.

Lemma _startAllServices_trace P w :
  trace_of (_startAllServices P w)
  = Requested (sleep 500) :: waited_trace P w
    ++ turns_trace P (service_table P) (waited P w).
Proof.
  unfold _startAllServices, bind. rewrite await_run. cbn [is_timer orb].
  destruct (forEach_start_one P (service_table P) (waited P w)) as [_ Ht].
  destruct (forEach (service_table P) (start_one P) (waited P w)) as [[r w2] t2].
  unfold trace_of in *. cbn [fst snd] in *. now subst t2.
Qed.

(** C2 (as amended): in the service-start sequence no failure reaches the
    caller: every turn of the loop ends normally and the sequence always
    resolves.  When a start method fails, the loop reports it by emitting
    [service:failed] if the entry is required (uart, temperature,
    accelerometer, buttons) and emits nothing if it is optional (the
    magnetometer only); every start method of the table, the magnetometer's
    included, has by then emitted [service:failed] once itself.  And the
    loop goes on: the trace of the sequence is the first pause followed by
    the turns of all five entries, each entry being attempted whatever
    became of the entries before it; where the UART service cannot be
    opened, the four other services are started. *)
Theorem start_sequence_never_rejects (P : Platform) (w : World) :
  result_of (_startAllServices P w) = Ok tt
  /\ (forall e w0,
        result_of (start_one P e w0) = Ok tt
        /\ trace_of (start_one P e w0)
           = trace_of (method e w0)
             ++ match result_of (method e w0) with
                | Ok _ =>
                    Requested (sleep (serviceDelay (config (this (world_of (method e w0))))))
                    :: waited_trace P (world_of (method e w0))
                | Throw error =>
                    if optional e then []
                    else emission "service:failed" (failed_data (entry_name e) error)
                           (world_of (method e w0))
                end)
  /\ map (fun e => (entry_name e, optional e)) (service_table P)
     = [("uart", false); ("temperature", false); ("accelerometer", false);
        ("buttons", false); ("magnetometer", true)]
  /\ Forall (fun e => forall w0,
       failures (entry_name e) (trace_of (method e w0))
       = match result_of (method e w0) with Ok _ => 0 | Throw _ => 1 end%nat)
       (service_table P)
  /\ trace_of (_startAllServices P w)
     = Requested (sleep 500) :: waited_trace P w
       ++ turns_trace P (service_table P) (waited P w)
  /\ schedule (trace_of (_startAllServices P w))
     = Requested (sleep 500) :: expected_schedule P (service_table P) (waited P w)
  /\ map (fun s => isServiceStarted s
                     (world_of (_startAllServices (without_service UART_SERVICE)
                                  linked_world)))
       ["uart"; "temperature"; "accelerometer"; "buttons"; "magnetometer"]
     = [false; true; true; true; true].
Proof.
  split; [|split; [|split; [|split; [|split; [|split]]]]].
  - apply (_startAllServices_spec P w).
  - intros e w0. rewrite start_one_run. cbv zeta.
    destruct (result_of (method e w0)); split; reflexivity.
  - apply service_names.
  - assert (H : forall s (c : M unit),
               (forall w0, spec (c w0) (start_post P s w0)) ->
               forall w0, failures s (trace_of (c w0))
                 = match result_of (c w0) with Ok _ => 0 | Throw _ => 1 end%nat).
    { intros s c Hc w0. destruct (Hc w0) as (_ & _ & Hsch & _).
      rewrite <- failures_schedule, Hsch.
      destruct (result_of (c w0)); cbn; [reflexivity|].
      now rewrite String.eqb_refl. }
    unfold service_table.
    repeat apply List.Forall_cons; [..|apply List.Forall_nil];
      cbn [entry_name method]; apply H; intros w0.
    + apply startUART_spec.
    + apply startTemperature_spec.
    + apply startAccelerometer_spec.
    + apply startButtons_spec.
    + apply startMagnetometer_spec.
  - apply _startAllServices_trace.
  - apply (_startAllServices_spec P w).
  - vm_compute. reflexivity.
Qed.

(** C2 (as stated) fails.  When the UART service cannot be opened,
    [startUART] throws, yet the sequence resolves, and so does
    [connect()]; and when the magnetometer service cannot be opened an
    event [service:failed] is emitted for it, and nothing is logged. *)
Lemma start_sequence_counterexample :
  result_of (startUART (without_service UART_SERVICE) linked_world)
    = Throw (Rejected (getPrimaryService UART_SERVICE))
  /\ result_of (_startAllServices (without_service UART_SERVICE) linked_world) = Ok tt
  /\ result_of (connect (without_service UART_SERVICE)
                  (fresh_world (constructor no_config))) = Ok tt
  /\ failures "magnetometer"
       (trace_of (_startAllServices (without_service MAGNETOMETER_SERVICE) linked_world))
     = 1%nat
  /\ console_logs
       (trace_of (_startAllServices (without_service MAGNETOMETER_SERVICE) linked_world))
     = [].
Proof. vm_compute. repeat split. Qed.

(** C7: the sequence takes the services in the order of the table, and
    every run has the schedule "pause 500 ms, then turn by turn"; a turn
    pauses the configured delay after a success only.  Evaluated where the
    UART service cannot be opened: the request for the temperature service
    follows the failed UART request with no pause between them, while after
    each successful attempt the pause of 300 ms is there. *)
Theorem no_pause_after_failed_attempt :
  (forall P w,
     result_of (_startAllServices P w) = Ok tt
     /\ schedule (trace_of (_startAllServices P w))
        = Requested (sleep 500)
          :: expected_schedule P (service_table P) (waited P w))
  /\ map entry_name (service_table ideal_platform)
     = ["uart"; "temperature"; "accelerometer"; "buttons"; "magnetometer"]
  /\ serviceDelay (config (constructor no_config)) = 300
  /\ schedule (trace_of (_startAllServices ideal_platform linked_world))
     = [Requested (sleep 500);
        Emitted "service:started" (started_data "uart"); Requested (sleep 300);
        Emitted "service:started" (started_data "temperature"); Requested (sleep 300);
        Emitted "service:started" (started_data "accelerometer"); Requested (sleep 300);
        Emitted "service:started" (started_data "buttons"); Requested (sleep 300);
        Emitted "service:started" (started_data "magnetometer"); Requested (sleep 300)]
  /\ take 4 (requests (trace_of
       (_startAllServices (without_service UART_SERVICE) linked_world)))
     = [sleep 500; getPrimaryService UART_SERVICE;
        getPrimaryService TEMPERATURE_SERVICE; getCharacteristic TEMPERATURE_DATA]
  /\ schedule (trace_of (_startAllServices (without_service UART_SERVICE) linked_world))
     = [Requested (sleep 500);
        Emitted "service:failed"
          (failed_data "uart" (Rejected (getPrimaryService UART_SERVICE)));
        Emitted "service:failed"
          (failed_data "uart" (Rejected (getPrimaryService UART_SERVICE)));
        Emitted "service:started" (started_data "temperature"); Requested (sleep 300);
        Emitted "service:started" (started_data "accelerometer"); Requested (sleep 300);
        Emitted "service:started" (started_data "buttons"); Requested (sleep 300);
        Emitted "service:started" (started_data "magnetometer"); Requested (sleep 300)].
Proof.
  split; [|vm_compute; repeat split].
  intros P w. pose proof (_startAllServices_spec P w) as (Hr & _ & _ & Hsch & _).
  split; assumption.
Qed.

(** ** Disconnection *)

Lemma spec_await_coop P op w Q :
  cooperative P ->
  gatt_connected w = true \/ is_gatt op = false ->
  Q (Ok tt) (tick w) [Requested op] ->
  spec (await P op w) Q.
Proof.
  intros (Hl & _ & Hr) Hup HQ. apply spec_await.
  unfold waited, waited_trace. rewrite Hl. cbn [andb].
  rewrite Hr by exact Hup. now rewrite orb_true_r.
Qed.

Lemma spec_gatt_connect_coop P w Q :
  cooperative P ->
  Q (Ok tt) (set_gatt_connected true (tick w)) [Requested gattConnect] ->
  spec (await_gatt_connect P w) Q.
Proof.
  intros (_ & Hu & Hr) HQ. unfold await_gatt_connect.
  apply spec_bind, spec_tuple. apply spec_bind, spec_tuple.
  apply spec_bind, spec_tuple. apply spec_bind, spec_tuple.
  rewrite Hr by (right; reflexivity). apply spec_tuple.
  rewrite Hu. exact HQ.
Qed.

Ltac world_simpl :=
  cbn [server_connected device_gatt_connected server device this gatt_connected
       set_this set_gatt_connected add_disconnect_listener add_value_listener
       tick with_device with_server with_services with_characteristics
       put_service put_characteristic cleared negb config].

Ltac coop_step Hc :=
  lazymatch goal with
  | |- spec (bind _ _ _) _ => apply spec_bind
  | |- spec (try_catch _ _ _) _ => apply spec_try_catch
  | |- spec (_emit _ _ _) _ => apply spec_emit
  | |- spec (await _ _ _) _ =>
      apply (spec_await_coop _ _ _ _ Hc);
      [first [left; reflexivity | right; reflexivity]|]
  | |- spec (await_gatt_connect _ _) _ => apply (spec_gatt_connect_coop _ _ _ Hc)
  | |- spec (forEach (_ :: _) _ _) _ => cbn [forEach]
  | |- spec (forEach [] _ _) _ => apply spec_tuple
  | |- spec (start_one _ _ _) _ => unfold start_one; cbn [method optional entry_name]
  | |- spec (startUART _ _) _ => unfold startUART
  | |- spec (startTemperature _ _) _ => unfold startTemperature
  | |- spec (startAccelerometer _ _) _ => unfold startAccelerometer
  | |- spec (startButtons _ _) _ => unfold startButtons
  | |- spec (startMagnetometer _ _) _ => unfold startMagnetometer
  | |- spec _ _ => run_prim
  end;
  unfold require_connected, services_set, characteristics_set,
    addEventListener, console_log, console_error;
  cbv beta iota; world_simpl.

Lemma connect_after_disconnection P w :
  cooperative P ->
  spec (connect P (cleared w)) (fun r w' _ =>
    r = Ok tt
    /\ isConnected w' = true
    /\ if autoStartServices (config (this w))
       then Forall (fun s => isServiceStarted s w' = true) known_services
       else True).
Proof.
  intros Hc. unfold connect.
  repeat coop_step Hc.
  destruct (autoStartServices (config (this w))).
  - unfold _startAllServices, service_table. repeat coop_step Hc.
    split; [reflexivity|]. split; [reflexivity|].
    unfold known_services, isServiceStarted.
    repeat apply List.Forall_cons; [..|apply List.Forall_nil];
      world_simpl; cbn [services]; vm_compute; reflexivity.
  - repeat coop_step Hc. repeat split.
Qed.

Lemma waited_down P w : gatt_connected w = false -> waited P w = tick w.
Proof. unfold waited. intros ->. now rewrite andb_false_r. Qed.

(** A [connect()] made while the link is down keeps the registries
    consistent, wherever the link is lost on the way. *)
Lemma connect_consistent P w :
  compliant P -> gatt_connected w = false -> consistent w ->
  consistent (world_of (connect P w)).
Proof.
  intros Hc Hdown Hw.
  assert (Hreg : services (this w) = ∅ /\ characteristics (this w) = ∅).
  { unfold consistent in Hw. now rewrite Hdown in Hw. }
  assert (Hbase : forall d s b,
            consistent
              (set_this (with_server s)
                 (set_gatt_connected b
                    (tick (add_disconnect_listener
                             (set_this (with_device d) (tick w))))))).
  { intros d s b. unfold consistent. cbn. destruct b; [lia | exact Hreg]. }
  change (spec (connect P w) (fun _ w' _ => consistent w')).
  unfold connect, await_gatt_connect. run_code.
  all: rewrite ?(waited_down P w Hdown).
  - apply Hbase.
  - eapply spec_conseq; [apply _startAllServices_spec|]. cbv beta.
    intros r w' t (-> & _ & _ & _ & H). apply H; [exact Hc | apply Hbase].
  - apply Hbase.
  - unfold consistent. cbn. now rewrite Hdown.
  - unfold consistent. cbn. now rewrite Hdown.
Qed.

(** C4: whenever the disconnect callback runs, in any state of the
    instance, it empties the service registry and the characteristic
    registry in one synchronous step (no handle can be looked up
    afterwards), emits [disconnection] to the registered callbacks, and
    changes nothing else.  A loss of the link at any await of the
    service-start sequence leaves no handle behind: on a platform that
    rejects GATT requests on a dead link, at every turn of the loop, at
    the end of the sequence and at the end of a [connect()] the registries
    are empty whenever the link is down.  The instance is then ready for
    [connect()]: on a cooperating
    platform a new [connect()] succeeds and, when services start
    automatically, starts all five. *)
Theorem disconnection_clears_registries (P : Platform) (w : World) :
  _handleDisconnection w
    = (Ok tt, cleared w,
       emission "disconnection" (disconnection_data (name <$> device (this w))) w)
  /\ services (this (cleared w)) = ∅
  /\ characteristics (this (cleared w)) = ∅
  /\ (forall s, isServiceStarted s (cleared w) = false)
  /\ (forall c, characteristics (this (cleared w)) !! c = None)
  /\ requests (trace_of (_handleDisconnection w)) = []
  /\ static (cleared w) = static w
  /\ (compliant P -> consistent w ->
      (forall k, consistent (turn_world P k w))
      /\ consistent (world_of (_startAllServices P w))
      /\ (if gatt_connected w then True
          else consistent (world_of (connect P w))))
  /\ (cooperative P ->
      spec (connect P (cleared w)) (fun r w' _ =>
        r = Ok tt
        /\ isConnected w' = true
        /\ if autoStartServices (config (this w))
           then Forall (fun s => isServiceStarted s w' = true) known_services
           else True)).
Proof.
  split; [apply _handleDisconnection_run|].
  split; [reflexivity|]. split; [reflexivity|].
  split; [intros s; unfold isServiceStarted; cbn;
          rewrite lookup_empty; apply bool_decide_eq_false_2; intros [? ?]; discriminate|].
  split; [intros c; cbn; apply lookup_empty|].
  split.
  { rewrite _handleDisconnection_run. unfold trace_of, disconnection_trace, emission.
    cbn. clear. induction (registered "disconnection" w) as [|h hs IH]; [reflexivity|].
    unfold handler_calls, requests in *. cbn [flat_map]. rewrite flat_map_app, IH.
    destruct (hbody h _); reflexivity. }
  split; [reflexivity|].
  split; [|apply connect_after_disconnection].
  intros Hc Hw. split.
  - intros k. unfold turn_world.
    assert (Hall : Forall (fun e => forall w0, consistent w0 ->
                      consistent (world_of (start_one P e w0))) (service_table P)).
    { eapply Forall_impl; [apply service_table_spec|].
      intros e He w0 Hw0. destruct (He w0) as (_ & _ & _ & _ & H). auto. }
    apply (Forall_take _ k) in Hall.
    pose proof (consistent_waited P w Hw) as Hw0.
    revert Hw0. generalize (waited P w).
    induction Hall as [|e es He Hes IH]; intros w0 Hw0; [exact Hw0|].
    cbn [fold_left]. apply IH, He, Hw0.
  - split.
    + destruct (_startAllServices_spec P w) as (_ & _ & _ & _ & H). auto.
    + destruct (gatt_connected w) eqn:Hdown; [exact I|].
      now apply connect_consistent.
Qed.

Lemma link_lost_at_compliant k : compliant (link_lost_at k).
Proof. intros n op H. cbn. now rewrite H. Defined.

Lemma ideal_platform_cooperative : cooperative ideal_platform.
Proof.
  split; [reflexivity|]. split; [reflexivity|].
  intros n up op [-> | H]; cbn; [reflexivity|].
  rewrite H. now destruct up.
Defined.

Lemma linked_world_consistent : consistent linked_world.
Proof. unfold consistent. vm_compute. constructor. Defined.

(** The theorem at work: the link is lost while [startUART] waits for its
    second characteristic, on a platform that rejects requests on a dead
    link; and a page reconnects after a disconnection. *)
Lemma disconnection_clears_registries_witness :
  consistent (world_of (_startAllServices (link_lost_at 5) linked_world))
  /\ spec (connect ideal_platform (cleared connected_world)) (fun r w' _ =>
       r = Ok tt
       /\ isConnected w' = true
       /\ if autoStartServices (config (this connected_world))
          then Forall (fun s => isServiceStarted s w' = true) known_services
          else True).
Proof.
  split.
  - exact (proj1 (proj2 (proj1 (proj2 (proj2 (proj2 (proj2 (proj2 (proj2 (proj2
             (disconnection_clears_registries (link_lost_at 5) linked_world))))))))
             (link_lost_at_compliant 5) linked_world_consistent))).
  - exact (proj2 (proj2 (proj2 (proj2 (proj2 (proj2 (proj2 (proj2
             (disconnection_clears_registries ideal_platform connected_world))))))))
             ideal_platform_cooperative).
Defined.

Example link_lost_mid_sequence :
  let w' := world_of (_startAllServices (link_lost_at 5) linked_world) in
  gatt_connected w' = false
  /\ services (this w') = ∅ /\ characteristics (this w') = ∅.
Proof. vm_compute. repeat split. Qed.

Example notification_reaches_listener :
  trace_of (characteristicvaluechanged ideal_platform BUTTON_A [Byte.x01] connected_world)
    = [Emitted "button:a:changed" (button_data true)]
  /\ trace_of (characteristicvaluechanged ideal_platform TEMPERATURE_DATA [Byte.xe8]
                 connected_world)
    = [Emitted "temperature:changed" (temperature_data (-24))].
Proof. vm_compute. split; reflexivity. Qed.

Example disconnect_then_reconnect :
  let w1 := world_of (disconnect connected_world) in
  let w2 := world_of (connect ideal_platform w1) in
  isConnected w1 = false
  /\ services (this w1) = ∅ /\ characteristics (this w1) = ∅
  /\ result_of (sendUART ideal_platform (js "hi") w1)
     = Throw (Error "UART service not started")
  /\ result_of (connect ideal_platform w1) = Ok tt
  /\ map (fun s => isServiceStarted s w2) known_services
     = [true; true; true; true; true].
Proof. vm_compute. repeat split. Qed.

(** * Further properties of the library *)

(** ** Decoders at the bounds of the payload *)

Lemma getUint8_short (view : DataView) (off : nat) :
  (length view <= off)%nat -> getUint8 view off = Throw RangeError.
Proof. intros H. unfold getUint8. now rewrite lookup_ge_None_2. Qed.

Lemma getUint16_short (view : DataView) (off : nat) le :
  (length view < off + 2)%nat -> getUint16 view off le = Throw RangeError.
Proof.
  intros H. unfold getUint16.
  destruct (view !! off) as [b0|]; [|reflexivity].
  rewrite (lookup_ge_None_2 view (S off)) by lia. reflexivity.
Qed.

Lemma getInt16_short (view : DataView) (off : nat) le :
  (length view < off + 2)%nat -> getInt16 view off le = Throw RangeError.
Proof. intros H. unfold getInt16. now rewrite getUint16_short. Qed.

Lemma getInt16_total (view : DataView) (off : nat) le :
  (off + 2 <= length view)%nat -> exists v, getInt16 view off le = Ok v.
Proof.
  intros H. unfold getInt16, getUint16.
  destruct (lookup_lt_is_Some_2 view off) as [b0 ->]; [lia|].
  destruct (lookup_lt_is_Some_2 view (S off)) as [b1 ->]; [lia|].
  destruct le; eauto.
Qed.

(** X1: a notification whose value is shorter than what the listener
    reads makes the listener throw [RangeError] before anything is emitted:
    no event, no callback, no change of state.  This holds for the
    temperature and button listeners (1 byte), the bearing listener (2
    bytes) and the accelerometer and magnetometer listeners (6 bytes). *)
Theorem short_payload_throws
    (P : Platform) (l : Listener) (n : nat) (value : DataView) (w : World) :
  payload_width l = Some n ->
  (length value < n)%nat ->
  run_listener P l value w = (Throw RangeError, w, []).
Proof.
  intros Hl Hn.
  destruct l; cbn in Hl; try discriminate; injection Hl as <-;
    unfold run_listener, bind, lift.
  - unfold getInt8. now rewrite getUint8_short by lia.
  - destruct (Nat.lt_ge_cases (length value) 2) as [H2|H2].
    { now rewrite getInt16_short by lia. }
    destruct (getInt16_total value 0 true) as [x ->]; [lia|].
    destruct (Nat.lt_ge_cases (length value) 4) as [H4|H4].
    { now rewrite getInt16_short by lia. }
    destruct (getInt16_total value 2 true) as [y ->]; [lia|].
    now rewrite getInt16_short by lia.
  - now rewrite getUint8_short by lia.
  - now rewrite getUint8_short by lia.
  - destruct (Nat.lt_ge_cases (length value) 2) as [H2|H2].
    { now rewrite getInt16_short by lia. }
    destruct (getInt16_total value 0 true) as [x ->]; [lia|].
    destruct (Nat.lt_ge_cases (length value) 4) as [H4|H4].
    { now rewrite getInt16_short by lia. }
    destruct (getInt16_total value 2 true) as [y ->]; [lia|].
    now rewrite getInt16_short by lia.
  - now rewrite getUint16_short by lia.
Qed.

Lemma short_payload_throws_witness :
  run_listener ideal_platform accelerometer_listener
    [Byte.x10; Byte.x00; Byte.xf0; Byte.xff; Byte.x00] connected_world
  = (Throw RangeError, connected_world, []).
Proof.
  apply (short_payload_throws ideal_platform accelerometer_listener 6);
    [reflexivity | cbn; lia].
Defined.

Lemma getUint8_app (view extra : DataView) (off : nat) :
  (off < length view)%nat -> getUint8 (view ++ extra) off = getUint8 view off.
Proof. intros H. unfold getUint8. now rewrite lookup_app_l. Qed.

Lemma getUint16_app (view extra : DataView) (off : nat) le :
  (off + 2 <= length view)%nat ->
  getUint16 (view ++ extra) off le = getUint16 view off le.
Proof. intros H. unfold getUint16. now rewrite !lookup_app_l by lia. Qed.

(** X2: a listener with a fixed width reads only its first bytes: bytes
    that follow them in the value change neither the event nor its data. *)
Theorem trailing_bytes_ignored
    (P : Platform) (l : Listener) (n : nat) (value extra : DataView) (w : World) :
  payload_width l = Some n ->
  (n <= length value)%nat ->
  run_listener P l (value ++ extra) w = run_listener P l value w.
Proof.
  intros Hl Hn.
  destruct l; cbn in Hl; try discriminate; injection Hl as <-;
    unfold run_listener, getInt8, getInt16;
    rewrite ?getUint8_app, ?getUint16_app by lia; reflexivity.
Qed.

Lemma trailing_bytes_ignored_witness :
  run_listener ideal_platform temperature_listener ([Byte.xe8] ++ [Byte.x01]) connected_world
  = run_listener ideal_platform temperature_listener [Byte.xe8] connected_world.
Proof.
  apply (trailing_bytes_ignored ideal_platform temperature_listener 1);
    [reflexivity | cbn; lia].
Defined.

(** X3: the bearing listener emits the unsigned 16-bit little-endian value
    of the first two bytes as it is: always between 0 and 65535, never
    reduced to 0..359; FF FF is emitted as 65535. *)
Theorem bearing_decode_unsigned (P : Platform) (lo hi : Byte.byte) (w : World) :
  run_listener P magnetometer_bearing_listener [lo; hi] w
    = (Ok tt, w,
       emission "magnetometer:bearing:changed"
         (bearing_data (byte_val lo + 256 * byte_val hi)) w)
  /\ 0 <= byte_val lo + 256 * byte_val hi <= 65535
  /\ (byte_val lo + 256 * byte_val hi) mod 256 = byte_val lo
  /\ (byte_val lo + 256 * byte_val hi) / 256 = byte_val hi
  /\ run_listener P magnetometer_bearing_listener [Byte.xff; Byte.xff] w
     = (Ok tt, w,
        emission "magnetometer:bearing:changed" (bearing_data 65535) w).
Proof.
  pose proof (byte_val_range lo). pose proof (byte_val_range hi).
  split; [|split; [lia|split; [|split]]].
  - unfold run_listener, bind, lift, getUint16. cbn [lookup list_lookup].
    rewrite _emit_run. reflexivity.
  - symmetry. apply Z.mod_unique with (q := byte_val hi); lia.
  - symmetry. apply Z.div_unique with (r := byte_val lo); lia.
  - unfold run_listener, bind, lift, getUint16. cbn [lookup list_lookup].
    rewrite _emit_run. reflexivity.
Qed.

(** ** The emitter and a new instance *)

Lemma initialize_lookup (names : list string) (m : gmap string (list Handler))
    (event : string) :
  foldl (fun h e => <[e := []]> h) m names !! event
  = if bool_decide (event ∈ names) then Some [] else m !! event.
Proof.
  revert m. induction names as [|e names IH]; intros m; [reflexivity|].
  cbn [foldl]. rewrite IH.
  destruct (decide (event ∈ names)) as [Hin|Hnin].
  - rewrite !bool_decide_eq_true_2; [reflexivity| |assumption].
    now apply elem_of_cons; right.
  - rewrite (bool_decide_eq_false_2 (event ∈ names)) by assumption.
    destruct (decide (event = e)) as [->|Hne].
    + rewrite lookup_insert_eq. rewrite bool_decide_eq_true_2; [reflexivity|].
      apply elem_of_cons; now left.
    + rewrite lookup_insert_ne by congruence.
      rewrite bool_decide_eq_false_2; [reflexivity|].
      intros [?|?]%elem_of_cons; contradiction.
Qed.

(** X4: whatever the configuration, a new instance has no device, no
    server and empty registries, and it holds an empty callback list for
    exactly the twelve event names of [_initializeEventHandlers]; so it is
    not connected, no service counts as started, and an emission on it
    calls nothing. *)
Theorem new_instance_is_blank
    (arg : ConfigArg) (event : string) (data : EventData) (serviceName : string) :
  let m := constructor arg in
  device m = None /\ server m = None
  /\ services m = ∅ /\ characteristics m = ∅
  /\ eventHandlers m !! event
     = (if bool_decide (event ∈ default_event_names) then Some [] else None)
  /\ isConnected (fresh_world m) = false
  /\ isServiceStarted serviceName (fresh_world m) = false
  /\ _emit event data (fresh_world m) = (Ok tt, fresh_world m, [Emitted event data]).
Proof.
  cbv zeta.
  assert (Hl : eventHandlers (constructor arg) !! event
               = if bool_decide (event ∈ default_event_names) then Some [] else None).
  { unfold constructor, _initializeEventHandlers. cbn [eventHandlers with_eventHandlers].
    rewrite initialize_lookup. destruct (bool_decide _); [reflexivity|].
    apply lookup_empty. }
  repeat split; try reflexivity.
  - exact Hl.
  - rewrite _emit_run. unfold registered. cbn [this fresh_world]. rewrite Hl.
    destruct (bool_decide _); reflexivity.
Qed.

(** X5: [on] touches one list only: after [on(event, handler)] an
    emission of any other event calls exactly what it called before. *)
Theorem on_leaves_other_events
    (event other : string) (handler : Handler) (data : EventData) (w : World) :
  other <> event ->
  registered other (world_of (on event handler w)) = registered other w
  /\ trace_of (_emit other data (world_of (on event handler w)))
     = trace_of (_emit other data w).
Proof.
  intros Hne.
  assert (H : registered other (world_of (on event handler w)) = registered other w).
  { rewrite on_run. unfold registered, world_of. cbn.
    rewrite lookup_insert_ne by congruence. reflexivity. }
  split; [exact H|]. rewrite !_emit_run. unfold trace_of, emission. cbn [snd].
  now rewrite H.
Qed.

Lemma on_leaves_other_events_witness :
  registered "error" (world_of (on "connection" {| hid := 1; hbody := fun _ => None |}
                                  connected_world))
  = registered "error" connected_world.
Proof.
  exact (proj1 (on_leaves_other_events "connection" "error"
                  {| hid := 1; hbody := fun _ => None |}
                  (error_data "led" RangeError) connected_world
                  ltac:(discriminate))).
Defined.

(** X6: [on] does not look for duplicates and [_emit] does not either: a
    callback registered twice for an event is called twice by each
    emission, after the callbacks registered before it; [on] itself never
    throws and changes nothing but the callback table. *)
Theorem on_keeps_duplicates
    (event : string) (handler : Handler) (data : EventData) (w : World) :
  let w1 := world_of (on event handler w) in
  let w2 := world_of (on event handler w1) in
  result_of (on event handler w) = Ok tt
  /\ trace_of (on event handler w) = []
  /\ (config (this w1), device (this w1), server (this w1),
      services (this w1), characteristics (this w1))
     = (config (this w), device (this w), server (this w),
        services (this w), characteristics (this w))
  /\ (gatt_connected w1, disconnect_listeners w1, value_listeners w1, now w1)
     = (gatt_connected w, disconnect_listeners w, value_listeners w, now w)
  /\ registered event w2 = registered event w ++ [handler; handler]
  /\ invocations (trace_of (_emit event data w2))
     = map hid (registered event w) ++ [hid handler; hid handler].
Proof.
  cbv zeta. rewrite !on_run. unfold result_of, world_of, trace_of. cbn [fst snd].
  assert (H2 : registered event
                 (set_this (fun m => with_eventHandlers
                    (<[event := registered event
                         (set_this (fun m0 => with_eventHandlers
                            (<[event := registered event w ++ [handler]]>
                               (eventHandlers m0)) m0) w) ++ [handler]]>
                       (eventHandlers m)) m)
                    (set_this (fun m0 => with_eventHandlers
                       (<[event := registered event w ++ [handler]]>
                          (eventHandlers m0)) m0) w))
               = registered event w ++ [handler; handler]).
  { unfold registered at 1. cbn. rewrite lookup_insert_eq. cbn.
    unfold registered at 1. cbn. rewrite lookup_insert_eq. cbn.
    now rewrite <- app_assoc. }
  repeat split; try reflexivity.
  - exact H2.
  - rewrite _emit_run. cbn [snd]. cbn [invocations flat_map].
    rewrite H2. change (flat_map _ (handler_calls event data ?l))
      with (invocations (handler_calls event data l)).
    rewrite invocations_handler_calls, map_app. reflexivity.
Qed.

(** ** What a start method leaves behind *)

(** X7: when a start method succeeds and the link is still up, the
    registries hold exactly what was there before plus the service and its
    characteristics, one listener per subscribed characteristic was
    attached, and the requests made are those of the method, in order. *)
Theorem start_success_registers (P : Platform) (w : World) :
  spec (startUART P w) (fun r w' t =>
    match r with
    | Throw _ => True
    | Ok _ =>
        if gatt_connected w' then
          services (this w') = <["uart" := UART_SERVICE]> (services (this w))
          /\ characteristics (this w')
             = <["uart:tx" := UART_TX]> (<["uart:rx" := UART_RX]> (characteristics (this w)))
          /\ value_listeners w' = value_listeners w ++ [(UART_TX, uart_tx_listener)]
          /\ requests t
             = [getPrimaryService UART_SERVICE; getCharacteristic UART_RX;
                getCharacteristic UART_TX; startNotifications UART_TX]
        else True
    end)
  /\ spec (startTemperature P w) (fun r w' t =>
    match r with
    | Throw _ => True
    | Ok _ =>
        if gatt_connected w' then
          services (this w') = <["temperature" := TEMPERATURE_SERVICE]> (services (this w))
          /\ characteristics (this w')
             = <["temperature:data" := TEMPERATURE_DATA]> (characteristics (this w))
          /\ value_listeners w'
             = value_listeners w ++ [(TEMPERATURE_DATA, temperature_listener)]
          /\ requests t
             = [getPrimaryService TEMPERATURE_SERVICE; getCharacteristic TEMPERATURE_DATA;
                startNotifications TEMPERATURE_DATA]
        else True
    end)
  /\ spec (startAccelerometer P w) (fun r w' t =>
    match r with
    | Throw _ => True
    | Ok _ =>
        if gatt_connected w' then
          services (this w')
          = <["accelerometer" := ACCELEROMETER_SERVICE]> (services (this w))
          /\ characteristics (this w')
             = <["accelerometer:data" := ACCELEROMETER_DATA]> (characteristics (this w))
          /\ value_listeners w'
             = value_listeners w ++ [(ACCELEROMETER_DATA, accelerometer_listener)]
          /\ requests t
             = [getPrimaryService ACCELEROMETER_SERVICE;
                getCharacteristic ACCELEROMETER_DATA;
                startNotifications ACCELEROMETER_DATA]
        else True
    end)
  /\ spec (startButtons P w) (fun r w' t =>
    match r with
    | Throw _ => True
    | Ok _ =>
        if gatt_connected w' then
          services (this w') = <["buttons" := BUTTON_SERVICE]> (services (this w))
          /\ characteristics (this w')
             = <["button:b" := BUTTON_B]> (<["button:a" := BUTTON_A]> (characteristics (this w)))
          /\ value_listeners w'
             = value_listeners w
               ++ [(BUTTON_A, button_a_listener); (BUTTON_B, button_b_listener)]
          /\ requests t
             = [getPrimaryService BUTTON_SERVICE;
                getCharacteristic BUTTON_A; startNotifications BUTTON_A;
                getCharacteristic BUTTON_B; startNotifications BUTTON_B]
        else True
    end).
Proof.
  split; [|split; [|split]].
  - unfold startUART. run_code; try exact I; link_stays_up.
    repeat split; try reflexivity. obs_simpl. reflexivity.
  - unfold startTemperature. run_code; try exact I; link_stays_up.
    repeat split; try reflexivity. obs_simpl. reflexivity.
  - unfold startAccelerometer. run_code; try exact I; link_stays_up.
    repeat split; try reflexivity. obs_simpl. reflexivity.
  - unfold startButtons. run_code; try exact I; link_stays_up.
    repeat split; try reflexivity.
    + cbn. now rewrite <- app_assoc.
    + obs_simpl. reflexivity.
Qed.

(** X8: without a connected server every start method stops at its first
    line: it throws "GATT not connected", asks the platform for nothing,
    leaves the instance as it was, and emits [service:failed] once. *)
Theorem start_needs_link (P : Platform) (w : World) :
  server_connected w = false ->
  Forall (fun e =>
    method e w
    = (Throw (Error "GATT not connected"), w,
       emission "service:failed"
         (failed_data (entry_name e) (Error "GATT not connected")) w))
    (service_table P).
Proof.
  intros Hs. unfold service_table.
  repeat apply List.Forall_cons; [..|apply List.Forall_nil];
    cbn [method entry_name]; apply spec_eq.
  - unfold startUART. run_code; try (rewrite Hs in *; discriminate).
    cbn [app]. now rewrite app_nil_r.
  - unfold startTemperature. run_code; try (rewrite Hs in *; discriminate).
    cbn [app]. now rewrite app_nil_r.
  - unfold startAccelerometer. run_code; try (rewrite Hs in *; discriminate).
    cbn [app]. now rewrite app_nil_r.
  - unfold startButtons. run_code; try (rewrite Hs in *; discriminate).
    cbn [app]. now rewrite app_nil_r.
  - unfold startMagnetometer. run_code; try (rewrite Hs in *; discriminate).
    cbn [app]. now rewrite app_nil_r.
Qed.

Lemma start_needs_link_witness :
  Forall (fun e =>
    method e (fresh_world (constructor no_config))
    = (Throw (Error "GATT not connected"), fresh_world (constructor no_config),
       emission "service:failed"
         (failed_data (entry_name e) (Error "GATT not connected"))
         (fresh_world (constructor no_config))))
    (service_table ideal_platform).
Proof.
  exact (start_needs_link ideal_platform (fresh_world (constructor no_config)) eq_refl).
Defined.

Ltac started_now :=
  unfold isServiceStarted;
  cbn [this services put_service put_characteristic add_value_listener set_this
       with_services with_characteristics tick];
  rewrite lookup_insert_eq; apply bool_decide_eq_true_2; eauto.

Ltac failed_leaf :=
  unfold failed_start_post;
  first
    [ exact I
    | left; split; [reflexivity | obs_simpl; reflexivity]
    | right; left; reflexivity
    | right; right; split;
      [ eauto 6
      | lazymatch goal with
        | |- (if ?b then _ else _) =>
            let H := fresh "Hlink" in
            destruct b eqn:H; [no_loss H; started_now | exact I]
        end ] ].

(** X9: a start method fails for one of three reasons only: no connected
    server (then nothing was requested), the service itself was refused,
    or something after the service was opened failed.  In the last case
    nothing is rolled back: if the link is still up the service stays in
    the registry, so [isServiceStarted] answers true for a service whose
    start failed. *)
Theorem failed_start_keeps_service (P : Platform) (w : World) :
  spec (startUART P w) (failed_start_post "uart" UART_SERVICE)
  /\ spec (startTemperature P w) (failed_start_post "temperature" TEMPERATURE_SERVICE)
  /\ spec (startAccelerometer P w)
       (failed_start_post "accelerometer" ACCELEROMETER_SERVICE)
  /\ spec (startButtons P w) (failed_start_post "buttons" BUTTON_SERVICE)
  /\ spec (startMagnetometer P w) (failed_start_post "magnetometer" MAGNETOMETER_SERVICE).
Proof.
  split; [|split; [|split; [|split]]].
  - unfold startUART. run_code; failed_leaf.
  - unfold startTemperature. run_code; failed_leaf.
  - unfold startAccelerometer. run_code; failed_leaf.
  - unfold startButtons. run_code; failed_leaf.
  - unfold startMagnetometer. run_code; failed_leaf.
Qed.

(** X10: when [startUART] fails because the RX characteristic is refused,
    with the link still up, the UART service is reported as started and
    the characteristic registry is left as it was.  So on an instance that
    did not hold [uart:rx] before, [isServiceStarted] answers true for
    "uart" although [sendUART] throws "UART service not started" and writes
    nothing; on an instance that held it from an earlier start, [sendUART]
    still writes to that characteristic. *)
Theorem uart_started_but_unusable (P : Platform) (text : JsString) (w : World) :
  result_of (startUART P w) = Throw (Rejected (getCharacteristic UART_RX)) ->
  gatt_connected (world_of (startUART P w)) = true ->
  isServiceStarted "uart" (world_of (startUART P w)) = true
  /\ characteristics (this (world_of (startUART P w))) = characteristics (this w)
  /\ sendUART P text (world_of (startUART P w))
     = match characteristics (this w) !! "uart:rx" with
       | None =>
           (Throw (Error "UART service not started"), world_of (startUART P w), [])
       | Some c =>
           await P (writeValue c (TextEncoder_encode text ++ [Byte.x0a]))
             (world_of (startUART P w))
       end.
Proof.
  change (spec (startUART P w) (fun r w' _ =>
    r = Throw (Rejected (getCharacteristic UART_RX)) ->
    gatt_connected w' = true ->
    isServiceStarted "uart" w' = true
    /\ characteristics (this w') = characteristics (this w)
    /\ sendUART P text w'
       = match characteristics (this w) !! "uart:rx" with
         | None => (Throw (Error "UART service not started"), w', [])
         | Some c => await P (writeValue c (TextEncoder_encode text ++ [Byte.x0a])) w'
         end)).
  unfold startUART. run_code; intros Hr Hup; try discriminate Hr;
    try (injection Hr; discriminate).
  no_loss Hup. split; [started_now|]. split; [reflexivity|].
  rewrite sendUART_run.
  cbn [this characteristics put_service set_this with_services tick].
  now destruct (characteristics (this w) !! "uart:rx").
Qed.

Lemma uart_started_but_unusable_witness :
  isServiceStarted "uart"
    (world_of (startUART (without_characteristic UART_RX) linked_world)) = true
  /\ characteristics
       (this (world_of (startUART (without_characteristic UART_RX) linked_world)))
     = characteristics (this linked_world)
  /\ sendUART (without_characteristic UART_RX) (js "hi")
       (world_of (startUART (without_characteristic UART_RX) linked_world))
     = match characteristics (this linked_world) !! "uart:rx" with
       | None =>
           (Throw (Error "UART service not started"),
            world_of (startUART (without_characteristic UART_RX) linked_world), [])
       | Some c =>
           await (without_characteristic UART_RX)
             (writeValue c (TextEncoder_encode (js "hi") ++ [Byte.x0a]))
             (world_of (startUART (without_characteristic UART_RX) linked_world))
       end.
Proof.
  apply (uart_started_but_unusable (without_characteristic UART_RX) (js "hi") linked_world);
    vm_compute; reflexivity.
Defined.

(** X11: [startMagnetometer] tolerates the loss of one of its two
    characteristics.  When it succeeds with the link still up, at least one
    of them was subscribed: for each one that was, notifications were
    requested, its listener was attached and it was put in the registry,
    and the console line logged is that of the one that was not, if any.
    It fails only without a connected server, when the service is refused,
    or, with "No magnetometer data available", when both subscriptions
    failed: both lines are then logged, and with the link still up no
    listener was attached and no characteristic registered. *)
Theorem magnetometer_needs_one_characteristic (P : Platform) (w : World) :
  let opened := [getPrimaryService MAGNETOMETER_SERVICE;
                 getCharacteristic MAGNETOMETER_DATA] in
  let data := (MAGNETOMETER_DATA, magnetometer_data_listener) in
  let bearing := (MAGNETOMETER_BEARING, magnetometer_bearing_listener) in
  spec (startMagnetometer P w) (fun r w' t =>
    match r with
    | Ok _ =>
        (console_logs t = []
         \/ console_logs t = [data_unavailable]
         \/ console_logs t = [bearing_unavailable])
        /\ (if gatt_connected w' then
              isServiceStarted "magnetometer" w' = true
              /\ ((console_logs t = []
                   /\ value_listeners w' = value_listeners w ++ [data; bearing]
                   /\ characteristics (this w')
                      = <["magnetometer:bearing" := MAGNETOMETER_BEARING]>
                          (<["magnetometer:data" := MAGNETOMETER_DATA]>
                             (characteristics (this w)))
                   /\ requests t
                      = opened ++ [startNotifications MAGNETOMETER_DATA;
                                   getCharacteristic MAGNETOMETER_BEARING;
                                   startNotifications MAGNETOMETER_BEARING])
                  \/ (console_logs t = [bearing_unavailable]
                      /\ value_listeners w' = value_listeners w ++ [data]
                      /\ characteristics (this w')
                         = <["magnetometer:data" := MAGNETOMETER_DATA]>
                             (characteristics (this w))
                      /\ (requests t
                          = opened ++ [startNotifications MAGNETOMETER_DATA;
                                       getCharacteristic MAGNETOMETER_BEARING]
                          \/ requests t
                             = opened ++ [startNotifications MAGNETOMETER_DATA;
                                          getCharacteristic MAGNETOMETER_BEARING;
                                          startNotifications MAGNETOMETER_BEARING]))
                  \/ (console_logs t = [data_unavailable]
                      /\ value_listeners w' = value_listeners w ++ [bearing]
                      /\ characteristics (this w')
                         = <["magnetometer:bearing" := MAGNETOMETER_BEARING]>
                             (characteristics (this w))
                      /\ (requests t
                          = opened ++ [getCharacteristic MAGNETOMETER_BEARING;
                                       startNotifications MAGNETOMETER_BEARING]
                          \/ requests t
                             = opened ++ [startNotifications MAGNETOMETER_DATA;
                                          getCharacteristic MAGNETOMETER_BEARING;
                                          startNotifications MAGNETOMETER_BEARING])))
            else True)
    | Throw err =>
        (err = Error "GATT not connected" /\ console_logs t = [] /\ requests t = [])
        \/ (err = Rejected (getPrimaryService MAGNETOMETER_SERVICE)
            /\ console_logs t = []
            /\ requests t = [getPrimaryService MAGNETOMETER_SERVICE])
        \/ (err = Error "No magnetometer data available"
            /\ console_logs t = [data_unavailable; bearing_unavailable]
            /\ (if gatt_connected w' then
                  value_listeners w' = value_listeners w
                  /\ characteristics (this w') = characteristics (this w)
                else True))
    end).
Proof.
  cbv zeta. unfold startMagnetometer. run_code.
  all: try (left; repeat split; obs_simpl; reflexivity).
  all: try (right; left; repeat split; obs_simpl; reflexivity).
  all: try (right; right; split; [reflexivity|]; split; [obs_simpl; reflexivity|];
            lazymatch goal with
            | |- (if ?b then _ else _) =>
                let H := fresh "Hlink" in
                destruct b eqn:H; [no_loss H; split; reflexivity | exact I]
            end).
  all: split;
    [ obs_simpl; auto
    | lazymatch goal with
      | |- (if ?b then _ else _) =>
          let H := fresh "Hlink" in
          destruct b eqn:H; [no_loss H | exact I]
      end ].
  all: split; [started_now|].
  all: obs_simpl.
  all: cbn [this characteristics value_listeners put_service put_characteristic
            add_value_listener set_this with_services with_characteristics tick app].
  all: rewrite <- ?app_assoc; cbn [app].
  all: first
    [ left; repeat split; reflexivity
    | right; left; split; [reflexivity|]; split; [reflexivity|];
      split; [reflexivity|]; first [left; reflexivity | right; reflexivity]
    | right; right; split; [reflexivity|]; split; [reflexivity|];
      split; [reflexivity|]; first [left; reflexivity | right; reflexivity] ].
Qed.

(** ** From a started service to its events *)

Lemma button_a_run P (b : Byte.byte) w :
  run_listener P button_a_listener [b] w
  = (Ok tt, w, emission "button:a:changed" (button_data (Byte.eqb b Byte.x01)) w).
Proof.
  unfold run_listener, bind, lift, getUint8. cbn [lookup list_lookup].
  rewrite _emit_run, byte_val_eqb_1. reflexivity.
Qed.

Lemma button_b_run P (b : Byte.byte) w :
  run_listener P button_b_listener [b] w
  = (Ok tt, w, emission "button:b:changed" (button_data (Byte.eqb b Byte.x01)) w).
Proof.
  unfold run_listener, bind, lift, getUint8. cbn [lookup list_lookup].
  rewrite _emit_run, byte_val_eqb_1. reflexivity.
Qed.

Lemma characteristicvaluechanged_run P uuid value w :
  characteristicvaluechanged P uuid value w
  = forEach (filter (fun ul => ul.1 = uuid) (value_listeners w))
      (fun ul => try_catch (run_listener P ul.2 value)
                   (fun error => console_error "Uncaught" error)) w.
Proof.
  unfold characteristicvaluechanged, bind, gets.
  destruct (forEach _ _ w) as [[? ?] ?]. reflexivity.
Qed.

(** X12: on a connection that had no listeners yet, once [startButtons]
    has succeeded with the link up, a notification of the button A
    characteristic emits [button:a:changed], one of the button B
    characteristic emits [button:b:changed], each with the decoded state,
    and a notification of any other characteristic emits nothing. *)
Theorem buttons_started_then_notified
    (P : Platform) (b : Byte.byte) (uuid : string) (w : World) :
  value_listeners w = [] ->
  result_of (startButtons P w) = Ok tt ->
  gatt_connected (world_of (startButtons P w)) = true ->
  let w' := world_of (startButtons P w) in
  characteristicvaluechanged P BUTTON_A [b] w'
    = (Ok tt, w', emission "button:a:changed" (button_data (Byte.eqb b Byte.x01)) w')
  /\ characteristicvaluechanged P BUTTON_B [b] w'
    = (Ok tt, w', emission "button:b:changed" (button_data (Byte.eqb b Byte.x01)) w')
  /\ (if bool_decide (uuid = BUTTON_A) || bool_decide (uuid = BUTTON_B) then True
      else characteristicvaluechanged P uuid [b] w' = (Ok tt, w', [])).
Proof.
  intros Hvl. cbv zeta.
  change (spec (startButtons P w) (fun r w' _ =>
    r = Ok tt -> gatt_connected w' = true ->
    characteristicvaluechanged P BUTTON_A [b] w'
      = (Ok tt, w', emission "button:a:changed" (button_data (Byte.eqb b Byte.x01)) w')
    /\ characteristicvaluechanged P BUTTON_B [b] w'
      = (Ok tt, w', emission "button:b:changed" (button_data (Byte.eqb b Byte.x01)) w')
    /\ (if bool_decide (uuid = BUTTON_A) || bool_decide (uuid = BUTTON_B) then True
        else characteristicvaluechanged P uuid [b] w' = (Ok tt, w', [])))).
  unfold startButtons. run_code; intros Hr Hup; try discriminate Hr.
  no_loss Hup. rewrite !characteristicvaluechanged_run.
  cbn [value_listeners put_service put_characteristic add_value_listener set_this tick].
  rewrite Hvl. cbn [app].
  split; [|split].
  - replace (filter _ _) with [(BUTTON_A, button_a_listener)] by (vm_compute; reflexivity).
    cbn [forEach]. unfold bind, try_catch. cbn [snd]. rewrite button_a_run.
    cbn. now rewrite app_nil_r.
  - replace (filter _ _) with [(BUTTON_B, button_b_listener)] by (vm_compute; reflexivity).
    cbn [forEach]. unfold bind, try_catch. cbn [snd]. rewrite button_b_run.
    cbn. now rewrite app_nil_r.
  - destruct (bool_decide (uuid = BUTTON_A)) eqn:Ha; [exact I|].
    destruct (bool_decide (uuid = BUTTON_B)) eqn:Hb; [exact I|]. cbn [orb].
    apply bool_decide_eq_false in Ha, Hb.
    rewrite filter_cons_False by (cbn; congruence).
    rewrite filter_cons_False by (cbn; congruence).
    reflexivity.
Qed.

Lemma buttons_started_then_notified_witness :
  characteristicvaluechanged ideal_platform BUTTON_A [Byte.x01]
    (world_of (startButtons ideal_platform linked_world))
  = (Ok tt, world_of (startButtons ideal_platform linked_world),
     emission "button:a:changed" (button_data (Byte.eqb Byte.x01 Byte.x01))
       (world_of (startButtons ideal_platform linked_world))).
Proof.
  exact (proj1 (buttons_started_then_notified ideal_platform Byte.x01 UART_TX linked_world
                  eq_refl eq_refl eq_refl)).
Defined.

(** ** Services start independently of each other *)

Lemma waited_refusing bad w : waited (refusing bad) w = tick w.
Proof. reflexivity. Qed.

Lemma waited_trace_refusing bad w : waited_trace (refusing bad) w = [].
Proof. reflexivity. Qed.

Ltac refusing_step bad Hup :=
  run_step;
  repeat match goal with
    | |- context [waited (refusing bad) ?X] =>
        change (waited (refusing bad) X) with (tick X)
    | |- context [waited_trace (refusing bad) ?X] =>
        change (waited_trace (refusing bad) X) with (@nil Obs)
    end;
  cbn [resolves refusing ideal_platform is_gatt gatt_connected tick put_service
       put_characteristic add_value_listener set_this orb andb negb];
  rewrite ?Hup; cbn [orb andb negb]; cbv beta iota.

Ltac refusing_run bad Hup :=
  unfold require_connected, services_set, characteristics_set,
    addEventListener, console_log, console_error;
  repeat refusing_step bad Hup.

Ltac refusing_leaf Hs :=
  try (rewrite Hs in *; discriminate);
  repeat match goal with
    | H : negb _ = true |- _ => apply negb_true_iff in H; rewrite ?H
    | H : negb _ = false |- _ => apply negb_false_iff in H; rewrite ?H
    end;
  repeat split; reflexivity.

Lemma refusing_turns bad :
  Forall2 (fun e su => forall w, server_connected w = true ->
             spec (start_one (refusing bad) e w) (turn_post bad su w))
    (service_table (refusing bad)) service_uuids.
Proof.
  unfold service_table, service_uuids.
  repeat apply List.Forall2_cons; [..|apply List.Forall2_nil];
    intros w Hs;
    assert (Hup : gatt_connected w = true)
      by (unfold server_connected in Hs; now destruct (server (this w)));
    unfold start_one, turn_post, add_unless; cbn [method optional entry_name fst snd].
  - unfold startUART. refusing_run bad Hup; refusing_leaf Hs.
  - unfold startTemperature. refusing_run bad Hup; refusing_leaf Hs.
  - unfold startAccelerometer. refusing_run bad Hup; refusing_leaf Hs.
  - unfold startButtons. refusing_run bad Hup; refusing_leaf Hs.
  - unfold startMagnetometer. refusing_run bad Hup; refusing_leaf Hs.
Qed.

Lemma refusing_loop bad (es : list ServiceEntry) (sus : list (string * string)) :
  Forall2 (fun e su => forall w, server_connected w = true ->
             spec (start_one (refusing bad) e w) (turn_post bad su w)) es sus ->
  forall w, server_connected w = true ->
  spec (forEach es (start_one (refusing bad)) w) (fun r w' _ =>
    r = Ok tt
    /\ server_connected w' = true
    /\ services (this w') = foldl (add_unless bad) (services (this w)) sus).
Proof.
  induction 1 as [|e su es sus He Hes IH]; intros w Hs.
  - apply spec_tuple. auto.
  - cbn [forEach foldl]. apply spec_bind.
    eapply spec_conseq; [apply He, Hs|]. cbv beta.
    intros r w1 t1 (-> & Hsrv & Hg & Hsv).
    assert (Hs1 : server_connected w1 = true).
    { unfold server_connected in *. now rewrite Hsrv, Hg. }
    eapply spec_conseq; [apply IH, Hs1|]. cbv beta.
    intros r2 w2 t2 (-> & Hs2 & Hsv2). rewrite Hsv2, Hsv. auto.
Qed.

(** X13: the services start independently of each other.  On a platform
    that refuses some services and grants every other request, a sequence
    run on a connected instance with an empty registry ends with exactly
    the services that were not refused in the registry: a refused
    magnetometer, or a refused UART, keeps no other service from starting. *)
Theorem services_start_independently (bad : string -> bool) (w : World) :
  server_connected w = true ->
  services (this w) = ∅ ->
  result_of (_startAllServices (refusing bad) w) = Ok tt
  /\ services (this (world_of (_startAllServices (refusing bad) w)))
     = foldl (add_unless bad) ∅ service_uuids
  /\ Forall (fun su =>
       isServiceStarted su.1 (world_of (_startAllServices (refusing bad) w))
       = negb (bad su.2)) service_uuids.
Proof.
  intros Hs Hempty.
  assert (H : spec (_startAllServices (refusing bad) w) (fun r w' _ =>
            r = Ok tt
            /\ services (this w') = foldl (add_unless bad) ∅ service_uuids)).
  { unfold _startAllServices. apply spec_bind, spec_await. cbn [is_timer orb].
    change (waited (refusing bad) w) with (tick w).
    eapply spec_conseq; [apply (refusing_loop bad _ _ (refusing_turns bad)); exact Hs|].
    cbv beta. intros r w' t (-> & _ & Hsv). cbn [this tick] in Hsv.
    rewrite Hempty in Hsv. auto. }
  destruct H as [Hr Hsv]. split; [exact Hr|]. split; [exact Hsv|].
  unfold isServiceStarted. rewrite Hsv. clear.
  unfold service_uuids, add_unless.
  repeat apply List.Forall_cons; try apply List.Forall_nil; cbn [foldl fst snd];
    destruct (bad UART_SERVICE), (bad TEMPERATURE_SERVICE),
      (bad ACCELEROMETER_SERVICE), (bad BUTTON_SERVICE), (bad MAGNETOMETER_SERVICE);
    vm_compute; reflexivity.
Qed.

Lemma services_start_independently_witness :
  Forall (fun su =>
    isServiceStarted su.1
      (world_of (_startAllServices (refusing (String.eqb MAGNETOMETER_SERVICE)) linked_world))
    = negb (String.eqb MAGNETOMETER_SERVICE su.2)) service_uuids.
Proof.
  exact (proj2 (proj2 (services_start_independently
                         (String.eqb MAGNETOMETER_SERVICE) linked_world eq_refl eq_refl))).
Defined.

(** ** The writers, continued *)

Lemma reported_app t1 t2 : reported (t1 ++ t2) = reported t1 ++ reported t2.
Proof. apply flat_map_app. Qed.

Lemma reported_nil : reported [] = [].
Proof. reflexivity. Qed.

Lemma reported_requested op t : reported (Requested op :: t) = reported t.
Proof. reflexivity. Qed.

Lemma reported_handler_calls event data hs : reported (handler_calls event data hs) = [].
Proof.
  induction hs as [|h hs IH]; [reflexivity|].
  unfold handler_calls in *. cbn [flat_map]. rewrite reported_app, IH.
  destruct (hbody h data); reflexivity.
Qed.

Lemma reported_emission event data w :
  reported (emission event data w)
  = if String.eqb event "disconnection" then [] else [(event, data)].
Proof.
  unfold emission.
  change (Emitted event data :: ?t) with ([Emitted event data] ++ t).
  rewrite reported_app, reported_handler_calls. cbn.
  destruct (String.eqb event "disconnection"); reflexivity.
Qed.

Lemma reported_dropped_trace w : reported (dropped_trace w) = [].
Proof.
  unfold dropped_trace. induction (disconnect_listeners w) as [|n IH]; [reflexivity|].
  cbn [replicate concat]. rewrite reported_app, IH.
  unfold disconnection_trace. now rewrite reported_emission.
Qed.

Lemma reported_waited_trace P w : reported (waited_trace P w) = [].
Proof.
  unfold waited_trace. destruct (_ && _); [apply reported_dropped_trace | reflexivity].
Qed.

Create Rewrite HintDb rep.
#[global] Hint Rewrite reported_app reported_nil reported_requested reported_emission
  reported_waited_trace reported_dropped_trace @app_nil_r @app_nil_l : rep.

Ltac rep_simpl :=
  autorewrite with rep; cbn [String.eqb Ascii.eqb Bool.eqb app].

(** X14: [sendUART] reports a failure by throwing only: it emits no event.
    [sendTextToLED] emits nothing when it succeeds (not even
    [service:started] for the LED service it opens), and when it fails it
    emits exactly one [error] event, of type "led", carrying the error it
    then throws. *)
Theorem send_failure_events (P : Platform) (text : JsString) (w : World) :
  spec (sendUART P text w) (fun _ _ t => reported t = [])
  /\ spec (sendTextToLED P text w) (fun r _ t =>
       reported t
       = match r with
         | Ok _ => []
         | Throw e => [("error", error_data "led" e)]
         end).
Proof.
  split.
  - unfold sendUART. run_code; rep_simpl; reflexivity.
  - unfold sendTextToLED. run_code; rep_simpl; reflexivity.
Qed.

Lemma led_cached_requests P text w :
  is_Some (services (this w) !! "led") ->
  spec (sendTextToLED P text w) (fun _ _ t =>
    requests t `prefix_of`
      [getCharacteristic LED_TEXT; writeValue LED_TEXT (TextEncoder_encode text)]).
Proof.
  intros [h Hh]. unfold sendTextToLED. run_code; try congruence; obs_simpl.
  all: first [ now exists [getCharacteristic LED_TEXT;
                           writeValue LED_TEXT (TextEncoder_encode text)]
             | now exists [writeValue LED_TEXT (TextEncoder_encode text)]
             | now exists [] ].
Qed.

(** X15: [sendTextToLED] keeps the LED service it opened, and only the
    service.  After a send that succeeded with the link still up, the
    service is in the registry, the characteristic registry is as it was,
    and the next send asks for the characteristic and writes, without
    asking for the service again. *)
Theorem led_service_is_cached (P : Platform) (text next : JsString) (w : World) :
  result_of (sendTextToLED P text w) = Ok tt ->
  gatt_connected (world_of (sendTextToLED P text w)) = true ->
  let w' := world_of (sendTextToLED P text w) in
  isServiceStarted "led" w' = true
  /\ characteristics (this w') = characteristics (this w)
  /\ requests (trace_of (sendTextToLED P next w')) `prefix_of`
       [getCharacteristic LED_TEXT; writeValue LED_TEXT (TextEncoder_encode next)].
Proof.
  cbv zeta.
  change (spec (sendTextToLED P text w) (fun r w' _ =>
    r = Ok tt -> gatt_connected w' = true ->
    isServiceStarted "led" w' = true
    /\ characteristics (this w') = characteristics (this w)
    /\ requests (trace_of (sendTextToLED P next w')) `prefix_of`
         [getCharacteristic LED_TEXT; writeValue LED_TEXT (TextEncoder_encode next)])).
  unfold sendTextToLED at 1. run_code; intros Hr Hup; try discriminate Hr; no_loss Hup.
  - assert (Hled : is_Some (services (this (tick (tick w))) !! "led")) by (cbn; eauto).
    split; [|split].
    + unfold isServiceStarted. now apply bool_decide_eq_true_2.
    + reflexivity.
    + apply (led_cached_requests P next _ Hled).
  - assert (Hled : is_Some (services (this
              (tick (tick (put_service "led" LED_SERVICE (tick w))))) !! "led")).
    { cbn. rewrite lookup_insert_eq. eauto. }
    split; [|split].
    + unfold isServiceStarted. now apply bool_decide_eq_true_2.
    + reflexivity.
    + apply (led_cached_requests P next _ Hled).
Qed.

Lemma led_service_is_cached_witness :
  isServiceStarted "led"
    (world_of (sendTextToLED ideal_platform (js "A") connected_world)) = true
  /\ characteristics (this (world_of (sendTextToLED ideal_platform (js "A") connected_world)))
     = characteristics (this connected_world)
  /\ requests (trace_of (sendTextToLED ideal_platform (js "B")
                 (world_of (sendTextToLED ideal_platform (js "A") connected_world))))
     `prefix_of`
       [getCharacteristic LED_TEXT; writeValue LED_TEXT (TextEncoder_encode (js "B"))].
Proof.
  apply (led_service_is_cached ideal_platform (js "A") (js "B") connected_world);
    vm_compute; reflexivity.
Defined.

(** ** Connecting and disconnecting *)

(** X16: the outcomes of [connect()].  It fails for exactly three causes:
    the chooser rejects, [gatt.connect()] rejects, or the server it returns
    is not connected; a failure of a service never fails it.  When it fails
    it has emitted [connection] "requesting" and then one [error] event of
    type "connection" with the error it throws, and it has asked the
    platform for nothing beyond the device and the link.  When it succeeds
    the device is the chosen one, the server is set, and the first events
    are [connection] "requesting" and [connection] "connected" with the
    name of the device. *)
Theorem connect_outcomes (P : Platform) (w : World) :
  let prefix := deviceNamePrefix (config (this w)) in
  spec (connect P w) (fun r w' t =>
    match r with
    | Ok _ =>
        device (this w') = Some (chosen_device P (now w))
        /\ server (this w') = Some tt
        /\ [("connection", connection_data "requesting" None);
            ("connection",
             connection_data "connected" (Some (name (chosen_device P (now w)))))]
           `prefix_of` reported t
        /\ [requestDevice prefix; gattConnect] `prefix_of` requests t
    | Throw e =>
        (e = Rejected (requestDevice prefix) \/ e = Rejected gattConnect
         \/ e = Error "GATT connection failed")
        /\ reported t = [("connection", connection_data "requesting" None);
                         ("error", error_data "connection" e)]
        /\ requests t `prefix_of` [requestDevice prefix; gattConnect]
    end).
Proof.
  cbv zeta. unfold connect, await_gatt_connect. run_code.
  all: try lazymatch goal with
    | |- spec (_startAllServices _ _) _ =>
        eapply spec_conseq; [apply _startAllServices_spec|]; cbv beta;
        intros r w' t (-> & Hst & _); cbv beta iota;
        unfold static in Hst; cbn in Hst; injection Hst as _ _ Hd Hs _;
        rewrite Hd, Hs
    end.
  all: repeat split; rep_simpl; obs_simpl; cbn; eauto.
  all: try (now eexists).
Qed.

(** X17: with [autoStartServices] off, [connect()] only picks the device
    and opens the link, whatever the state it is called in: it asks for no
    service, makes no pause and emits no service event.  Made on an
    instance whose link is down, it also leaves the registries and the
    characteristic listeners as they were. *)
Theorem connect_without_auto_start (P : Platform) (w : World) :
  autoStartServices (config (this w)) = false ->
  spec (connect P w) (fun r w' t =>
    requests t `prefix_of`
      [requestDevice (deviceNamePrefix (config (this w))); gattConnect]
    /\ schedule t = []
    /\ (gatt_connected w = false ->
        services (this w') = services (this w)
        /\ characteristics (this w') = characteristics (this w)
        /\ value_listeners w' = value_listeners w)).
Proof.
  intros Hauto.
  assert (Hcfg : config (this (waited P w)) = config (this w)).
  { unfold waited, dropped. destruct (_ && _); [|reflexivity].
    cbn. now destruct (disconnect_listeners w). }
  unfold connect, await_gatt_connect. run_code.
  all: try (cbn in *; rewrite Hcfg in *; congruence).
  all: split; [obs_simpl; cbn [app]; now eexists|].
  all: split; [trace_simpl; reflexivity|].
  all: intros Hdown; rewrite (waited_down P w Hdown); repeat split.
Qed.

Lemma connect_without_auto_start_witness :
  spec (connect ideal_platform (fresh_world (constructor manual_start)))
    (fun r w' t =>
      requests t `prefix_of`
        [requestDevice
           (deviceNamePrefix (config (this (fresh_world (constructor manual_start)))));
         gattConnect]
      /\ schedule t = []
      /\ (gatt_connected (fresh_world (constructor manual_start)) = false ->
          services (this w') = services (this (fresh_world (constructor manual_start)))
          /\ characteristics (this w')
             = characteristics (this (fresh_world (constructor manual_start)))
          /\ value_listeners w'
             = value_listeners (fresh_world (constructor manual_start)))).
Proof.
  apply (connect_without_auto_start ideal_platform
           (fresh_world (constructor manual_start))); reflexivity.
Defined.

Lemma disconnections_app t1 t2 :
  disconnections (t1 ++ t2) = (disconnections t1 + disconnections t2)%nat.
Proof. unfold disconnections. now rewrite List.filter_app, length_app. Qed.

Lemma disconnections_handler_calls event data hs :
  disconnections (handler_calls event data hs) = O.
Proof.
  induction hs as [|h hs IH]; [reflexivity|].
  unfold handler_calls in *. cbn [flat_map]. rewrite disconnections_app, IH.
  destruct (hbody h data); reflexivity.
Qed.

Lemma disconnections_dropped_trace w :
  disconnections (dropped_trace w) = disconnect_listeners w.
Proof.
  unfold dropped_trace. induction (disconnect_listeners w) as [|n IH]; [reflexivity|].
  cbn [replicate concat]. rewrite disconnections_app, IH.
  unfold disconnection_trace, emission.
  change (Emitted ?e ?d :: ?t) with ([Emitted e d] ++ t).
  now rewrite disconnections_app, disconnections_handler_calls.
Qed.

Lemma disconnect_run w :
  disconnect w
  = if device_gatt_connected w
    then (Ok tt, dropped w, dropped_trace w)
    else (Ok tt, w, []).
Proof.
  unfold disconnect, bind, gets. cbv beta iota.
  destruct (device_gatt_connected w); [rewrite gattserverdisconnected_run|];
    reflexivity.
Qed.

(** X18: [disconnect()] never throws and asks the platform for nothing
    else.  On an instance that is not connected it does nothing at all: no
    event, no change.  On a connected one the link goes down, the listeners
    on the characteristics are gone, [disconnection] is emitted once for
    each listener [connect()] has attached to the device, and both
    registries are emptied.  Afterwards the instance is not connected and a
    second [disconnect()] does nothing. *)
Theorem disconnect_outcomes (w : World) :
  spec (disconnect w) (fun r w' t =>
    r = Ok tt
    /\ isConnected w' = false
    /\ disconnect w' = (Ok tt, w', [])
    /\ requests t = []
    /\ if isConnected w
       then gatt_connected w' = false
            /\ value_listeners w' = []
            /\ disconnections t = disconnect_listeners w
            /\ match disconnect_listeners w with
               | O => True
               | S _ => services (this w') = ∅ /\ characteristics (this w') = ∅
               end
       else w' = w /\ t = []).
Proof.
  unfold spec, isConnected. rewrite (disconnect_run w).
  destruct (device_gatt_connected w) eqn:Hc;
    cbn [result_of world_of trace_of fst snd]; rewrite disconnect_run.
  - assert (Hd : device_gatt_connected (dropped w) = false).
    { unfold device_gatt_connected, dropped.
      destruct (disconnect_listeners w); cbn; destruct (device (this w)); reflexivity. }
    rewrite Hd. repeat split.
    + unfold dropped_trace.
      induction (disconnect_listeners w) as [|n IH]; [reflexivity|].
      cbn [replicate concat]. rewrite requests_app, IH.
      unfold disconnection_trace. now rewrite requests_emission.
    + unfold dropped. now destruct (disconnect_listeners w).
    + unfold dropped. now destruct (disconnect_listeners w).
    + apply disconnections_dropped_trace.
    + unfold dropped. now destruct (disconnect_listeners w).
  - rewrite Hc. repeat split.
Qed.

(** X19: what [getDeviceInfo()] reports.  A service name is in [services]
    exactly when [isServiceStarted] answers true for it.  A new instance
    reports no name, no id, not connected and no services.  After a loss of
    the link the name and the id of the lost device are still reported,
    with [connected] false and, once [connect()] has attached its listener,
    no services. *)
Theorem device_info_after_disconnection (w : World) (arg : ConfigArg) (s : string) :
  (s ∈ info_services (getDeviceInfo w) <-> isServiceStarted s w = true)
  /\ getDeviceInfo (fresh_world (constructor arg))
     = {| info_name := None; info_id := None; info_connected := false;
          info_services := ∅ |}
  /\ getDeviceInfo (world_of (gattserverdisconnected w))
     = {| info_name := info_name (getDeviceInfo w);
          info_id := info_id (getDeviceInfo w);
          info_connected := false;
          info_services := match disconnect_listeners w with
                           | O => info_services (getDeviceInfo w)
                           | S _ => ∅
                           end |}.
Proof.
  split; [|split].
  - unfold getDeviceInfo, isServiceStarted. cbn.
    rewrite elem_of_dom, bool_decide_eq_true. reflexivity.
  - unfold getDeviceInfo, isConnected, device_gatt_connected. cbn.
    now rewrite dom_empty_L.
  - rewrite gattserverdisconnected_run. cbn.
    unfold getDeviceInfo, isConnected, device_gatt_connected, dropped.
    destruct (disconnect_listeners w); cbn; destruct (device (this w)); cbn;
      rewrite ?dom_empty_L; reflexivity.
Qed.

(** X20: [connect()] attaches a new [gattserverdisconnected] listener to
    the device each time and none is ever removed.  So when the chooser
    returns the device the instance already holds, a successful
    [connect()] leaves one listener more than before, and the next loss of
    the link emits [disconnection] once per listener: once more than it
    would have before that [connect()]. *)
Theorem reconnect_adds_listener (P : Platform) (w : World) :
  device (this w) = Some (chosen_device P (now w)) ->
  result_of (connect P w) = Ok tt ->
  let w' := world_of (connect P w) in
  device (this w') = device (this w)
  /\ disconnect_listeners w' = S (disconnect_listeners w)
  /\ disconnections (trace_of (gattserverdisconnected w'))
     = S (disconnections (trace_of (gattserverdisconnected w))).
Proof.
  intros Hdev. cbv zeta.
  rewrite !gattserverdisconnected_run. unfold trace_of at 1 2. cbn [snd].
  rewrite !disconnections_dropped_trace.
  change (spec (connect P w) (fun r w' _ =>
    r = Ok tt ->
    device (this w') = device (this w)
    /\ disconnect_listeners w' = S (disconnect_listeners w)
    /\ disconnect_listeners w' = S (disconnect_listeners w))).
  assert (Hn : disconnect_listeners (waited P w) = disconnect_listeners w).
  { unfold waited, dropped. destruct (_ && _); [|reflexivity].
    cbn. destruct (disconnect_listeners w) eqn:E; cbn; exact E. }
  unfold connect, await_gatt_connect. run_code; try discriminate.
  - eapply spec_conseq; [apply _startAllServices_spec|]. cbv beta.
    intros r w' t (-> & Hst & _) _.
    unfold static in Hst. cbn in Hst. injection Hst as _ _ Hd _ Hl.
    rewrite Hd, Hl, Hn, Hdev. auto.
  - intros _. cbn. rewrite Hn, Hdev. auto.
Qed.

Lemma reconnect_adds_listener_witness :
  device (this (world_of (connect ideal_platform (world_of (disconnect connected_world)))))
  = device (this (world_of (disconnect connected_world)))
  /\ disconnect_listeners
       (world_of (connect ideal_platform (world_of (disconnect connected_world))))
     = S (disconnect_listeners (world_of (disconnect connected_world)))
  /\ disconnections
       (trace_of (gattserverdisconnected
          (world_of (connect ideal_platform (world_of (disconnect connected_world))))))
     = S (disconnections
            (trace_of (gattserverdisconnected (world_of (disconnect connected_world))))).
Proof.
  apply (reconnect_adds_listener ideal_platform (world_of (disconnect connected_world)));
    vm_compute; reflexivity.
Defined.

(** ** Starting a service again *)

Lemma temperature_run P (b : Byte.byte) w :
  run_listener P temperature_listener [b] w
  = (Ok tt, w,
     emission "temperature:changed" (temperature_data (twos_complement 8 (byte_val b))) w).
Proof.
  unfold run_listener, bind, lift, getInt8, getUint8. cbn [lookup list_lookup].
  rewrite _emit_run, (twos_complement_8 _ (byte_val_range b)). reflexivity.
Qed.

Lemma startTemperature_ok P w :
  result_of (startTemperature P w) = Ok tt ->
  gatt_connected (world_of (startTemperature P w)) = true ->
  let w' := world_of (startTemperature P w) in
  gatt_connected w = true
  /\ services (this w') = <["temperature" := TEMPERATURE_SERVICE]> (services (this w))
  /\ characteristics (this w')
     = <["temperature:data" := TEMPERATURE_DATA]> (characteristics (this w))
  /\ eventHandlers (this w') = eventHandlers (this w)
  /\ value_listeners w' = value_listeners w ++ [(TEMPERATURE_DATA, temperature_listener)].
Proof.
  cbv zeta.
  change (spec (startTemperature P w) (fun r w' _ =>
    r = Ok tt -> gatt_connected w' = true ->
    gatt_connected w = true
    /\ services (this w') = <["temperature" := TEMPERATURE_SERVICE]> (services (this w))
    /\ characteristics (this w')
       = <["temperature:data" := TEMPERATURE_DATA]> (characteristics (this w))
    /\ eventHandlers (this w') = eventHandlers (this w)
    /\ value_listeners w' = value_listeners w ++ [(TEMPERATURE_DATA, temperature_listener)])).
  unfold startTemperature. run_code; intros Hr Hup; try discriminate Hr.
  no_loss Hup. repeat split; try reflexivity. exact Hup.
Qed.

Lemma filter_uuid_none (uuid : string) (ls : list (string * Listener)) :
  Forall (fun ul => ul.1 <> uuid) ls ->
  filter (fun ul => ul.1 = uuid) ls = [].
Proof.
  induction 1 as [|ul ls Hne _ IH]; [reflexivity|].
  now rewrite filter_cons_False.
Qed.

(** X21: nothing keeps a service from being started twice on the same
    link.  On a link where the temperature characteristic has no listener
    yet (other services may be running), a second successful
    [startTemperature] leaves both registries as the first one left them,
    but it subscribes again and attaches a second listener to the
    characteristic: after the first start a notification emits
    [temperature:changed] once, after the second one twice. *)
Theorem start_twice_notifies_twice (P : Platform) (b : Byte.byte) (w : World) :
  let w1 := world_of (startTemperature P w) in
  let w2 := world_of (startTemperature P w1) in
  Forall (fun ul => ul.1 <> TEMPERATURE_DATA) (value_listeners w) ->
  result_of (startTemperature P w) = Ok tt ->
  result_of (startTemperature P w1) = Ok tt ->
  gatt_connected w2 = true ->
  services (this w2) = services (this w1)
  /\ characteristics (this w2) = characteristics (this w1)
  /\ value_listeners w2
     = value_listeners w ++ [(TEMPERATURE_DATA, temperature_listener);
                             (TEMPERATURE_DATA, temperature_listener)]
  /\ characteristicvaluechanged P TEMPERATURE_DATA [b] w1
     = (Ok tt, w1,
        emission "temperature:changed"
          (temperature_data (twos_complement 8 (byte_val b))) w1)
  /\ characteristicvaluechanged P TEMPERATURE_DATA [b] w2
     = (Ok tt, w2,
        emission "temperature:changed"
          (temperature_data (twos_complement 8 (byte_val b))) w2
        ++ emission "temperature:changed"
             (temperature_data (twos_complement 8 (byte_val b))) w2).
Proof.
  cbv zeta. intros Hvl Hr1 Hr2 Hup2.
  destruct (startTemperature_ok P _ Hr2 Hup2) as (Hup1 & Hs2 & Hc2 & _ & Hl2).
  destruct (startTemperature_ok P _ Hr1 Hup1) as (_ & Hs1 & Hc1 & _ & Hl1).
  rewrite Hl1, <- app_assoc in Hl2. cbn [app] in Hl2.
  pose proof (filter_uuid_none _ _ Hvl) as Hnone.
  split; [|split; [|split; [|split]]].
  - now rewrite Hs2, Hs1, insert_insert_eq.
  - now rewrite Hc2, Hc1, insert_insert_eq.
  - exact Hl2.
  - rewrite characteristicvaluechanged_run, Hl1, filter_app, Hnone.
    replace (filter _ [_]) with [(TEMPERATURE_DATA, temperature_listener)]
      by (vm_compute; reflexivity).
    cbn [app forEach]. unfold bind, try_catch. cbn [snd]. rewrite temperature_run.
    cbn. now rewrite app_nil_r.
  - rewrite characteristicvaluechanged_run, Hl2, filter_app, Hnone.
    replace (filter _ [_; _]) with [(TEMPERATURE_DATA, temperature_listener);
                                    (TEMPERATURE_DATA, temperature_listener)]
      by (vm_compute; reflexivity).
    cbn [app forEach]. unfold bind, try_catch. cbn [snd]. rewrite !temperature_run.
    cbn. now rewrite !app_nil_r.
Qed.

Lemma start_twice_notifies_twice_witness :
  let w := world_of (startUART ideal_platform linked_world) in
  value_listeners w = [(UART_TX, uart_tx_listener)]
  /\ services (this (world_of (startTemperature ideal_platform
                       (world_of (startTemperature ideal_platform w)))))
     = services (this (world_of (startTemperature ideal_platform w))).
Proof.
  split; [reflexivity|].
  refine (proj1 (start_twice_notifies_twice ideal_platform Byte.x00
                   (world_of (startUART ideal_platform linked_world))
                   _ eq_refl eq_refl eq_refl)).
  apply List.Forall_cons; [discriminate | apply List.Forall_nil].
Defined.
